(** * Adafruit_SSD1331: command traces of the SSD1331 OLED driver

    A shallow embedding of [Adafruit_SSD1331.cpp].  Every driver method is a
    function from the device state and the call's arguments to the trace of
    transport events the method performs, in program order.  The machine
    integers of the source are integers of [Z] with the narrowing conversions
    written out where the source performs them:

    - [int16_t] variables hold values wrapped by [to_int16];
    - [uint8_t] arguments of [spiWrite] are wrapped by [to_uint8];
    - [int] is the 32-bit [int] of the ARM and ESP targets of the library.
      Sums and differences of 16-bit values cannot leave that range and are
      written as plain [Z] operations; the one product, [w * h], goes
      through [to_int32];
    - the parameter of [delayMicroseconds] is an [unsigned int], so the
      [int] the driver computes is converted by [to_uint32] at the call. *)

From Stdlib Require Import ZArith List Bool Lia.
Import ListNotations.
Local Open Scope Z_scope.

(** ** Machine integers *)

Module Int.

Definition to_int16 (v : Z) : Z := (v + 32768) mod 65536 - 32768.
Definition to_int32 (v : Z) : Z := (v + 2147483648) mod 4294967296 - 2147483648.
Definition to_uint8 (v : Z) : Z := v mod 256.
Definition to_uint32 (v : Z) : Z := v mod 4294967296.

Definition is_int16 (v : Z) : Prop := -32768 <= v <= 32767.
Definition is_uint16 (v : Z) : Prop := 0 <= v <= 65535.

End Int.
Import Int.

(** ** The wire *)

(** Modelled from the spec: the header [Adafruit_SSD1331.h], which gives the
    [SSD1331_CMD_*] macros their numeric values, is not among the sources.
    The opcodes the methods below send are kept as the macro names
    themselves; the spec's list of "fixed one-byte opcodes" names the same
    commands. *)
Inductive opcode : Set :=
| SSD1331_CMD_DRAWLINE
| SSD1331_CMD_DRAWRECT
| SSD1331_CMD_COPY
| SSD1331_CMD_CLEAR
| SSD1331_CMD_FILL
| SSD1331_CMD_SETCOLUMN
| SSD1331_CMD_SETROW
| SSD1331_CMD_SETREMAP
| SSD1331_CMD_NORMALDISPLAY
| SSD1331_CMD_INVERTDISPLAY
| SSD1331_CMD_DISPLAYOFF
| SSD1331_CMD_DISPLAYON.

(** What a call hands to the transport as one byte: a named opcode or a
    computed value, already narrowed to [uint8_t]. *)
Inductive operand : Set :=
| Op (c : opcode)
| Byte (b : Z).

(** The services of the transport ([Adafruit_SPITFT]) and of the Arduino
    core that the driver calls; a trace is the list of calls made.
    [delayMicroseconds] carries the value its [unsigned int] parameter
    receives. *)
Inductive event : Set :=
| SPI_DC_LOW
| SPI_DC_HIGH
| spiWrite (b : operand)
| sendCommand (b : operand)
| startWrite
| endWrite
| delayMicroseconds (us : Z).

Definition trace := list event.

(** The operands written with [spiWrite], in order. *)
Fixpoint written (t : trace) : list operand :=
  match t with
  | [] => []
  | spiWrite b :: t' => b :: written t'
  | _ :: t' => written t'
  end.

(** The arguments of the [delayMicroseconds] calls, in order. *)
Fixpoint delays (t : trace) : list Z :=
  match t with
  | [] => []
  | delayMicroseconds us :: t' => us :: delays t'
  | _ :: t' => delays t'
  end.

(** ** Device state *)

(** The members of the graphics base class the driver reads and writes:
    the two fixed physical dimensions [WIDTH] and [HEIGHT], and the
    rotation-dependent [_width], [_height] and [rotation]. *)
Record Adafruit_SSD1331 : Set := mkDriver {
  WIDTH : Z;
  HEIGHT : Z;
  _width : Z;
  _height : Z;
  rotation : Z
}.

(** [bool swap = rotation & 0x01;] *)
Definition swap (d : Adafruit_SSD1331) : bool :=
  negb (Z.land (rotation d) 1 =? 0).

(** ** Command encoder *)

Definition spiWriteXY (d : Adafruit_SSD1331) (x y : Z) : trace :=
  [spiWrite (Byte (to_uint8 (if swap d then y else x)));
   spiWrite (Byte (to_uint8 (if swap d then x else y)))].

(** The parameter is an [int16_t]; callers convert their [uint16_t] colour. *)
Definition spiWriteColor (color : Z) : trace :=
  [spiWrite (Byte (to_uint8 (Z.land (Z.shiftr color 10) 0x3E)));
   spiWrite (Byte (to_uint8 (Z.land (Z.shiftr color 5) 0x3F)));
   spiWrite (Byte (to_uint8 (Z.land (Z.shiftl color 1) 0x3E)))].

(** ** Addressing window and mode toggles *)

Definition setAddrWindow (d : Adafruit_SSD1331) (x y w h : Z) : trace :=
  [SPI_DC_LOW;
   spiWrite (Op (if swap d then SSD1331_CMD_SETROW else SSD1331_CMD_SETCOLUMN));
   spiWrite (Byte (to_uint8 x));
   spiWrite (Byte (to_uint8 (x + w - 1)));
   spiWrite (Op (if swap d then SSD1331_CMD_SETCOLUMN else SSD1331_CMD_SETROW));
   spiWrite (Byte (to_uint8 y));
   spiWrite (Byte (to_uint8 (y + h - 1)));
   SPI_DC_HIGH].

Definition enableDisplay (enable : bool) : trace :=
  [sendCommand (Op (if enable then SSD1331_CMD_DISPLAYON
                    else SSD1331_CMD_DISPLAYOFF))].

Definition invertDisplay (i : bool) : trace :=
  [sendCommand (Op (if i then SSD1331_CMD_INVERTDISPLAY
                    else SSD1331_CMD_NORMALDISPLAY))].

(** ** Rotation *)

Section ColorOrder.

(** The build-time switch [SSD1331_COLORORDER_RGB]. *)
Variable SSD1331_COLORORDER_RGB : bool.

Definition SETREMAP_COLOR_BITS : Z :=
  if SSD1331_COLORORDER_RGB then 0x60 (* 0b01100000 *) else 0x64 (* 0b01100100 *).

Definition SETREMAP_ROTATION_0_BITS : Z := 0x12. (* 0b00010010 *)
Definition SETREMAP_ROTATION_1_BITS : Z := 0x03. (* 0b00000011 *)
Definition SETREMAP_ROTATION_2_BITS : Z := 0x00. (* 0b00000000 *)
Definition SETREMAP_ROTATION_3_BITS : Z := 0x11. (* 0b00010001 *)

Definition setRotation (d : Adafruit_SSD1331) (r : Z)
  : Adafruit_SSD1331 * trace :=
  let rotation' := Z.land r 0x03 in
  let '(w', h') :=
    if negb (Z.land rotation' 1 =? 0)
    then (HEIGHT d, WIDTH d)
    else (WIDTH d, HEIGHT d) in
  let remap_bits := SETREMAP_COLOR_BITS in
  let remap_bits :=
    match rotation' with
    | 0 => Z.lor remap_bits SETREMAP_ROTATION_0_BITS
    | 1 => Z.lor remap_bits SETREMAP_ROTATION_1_BITS
    | 2 => Z.lor remap_bits SETREMAP_ROTATION_2_BITS
    | 3 => Z.lor remap_bits SETREMAP_ROTATION_3_BITS
    | _ => remap_bits
    end in
  (mkDriver (WIDTH d) (HEIGHT d) w' h' rotation',
   [sendCommand (Op SSD1331_CMD_SETREMAP);
    sendCommand (Byte (to_uint8 remap_bits))]).

(** A run of [setRotation] calls: the final state and the whole trace. *)
Fixpoint setRotations (d : Adafruit_SSD1331) (rs : list Z)
  : Adafruit_SSD1331 * trace :=
  match rs with
  | [] => (d, [])
  | r :: rs' =>
      let '(d', t) := setRotation d r in
      let '(d'', t') := setRotations d' rs' in
      (d'', t ++ t')
  end.

End ColorOrder.

(** ** Lines *)

Definition writeLine (d : Adafruit_SSD1331) (x0 y0 x1 y1 color : Z) : trace :=
  if (x0 <? 0) || (x0 >=? _width d) ||
     (x1 <? 0) || (x1 >=? _width d) ||
     (y0 <? 0) || (y0 >=? _height d) ||
     (y1 <? 0) || (y1 >=? _height d)
  then []
  else
    [SPI_DC_LOW; spiWrite (Op SSD1331_CMD_DRAWLINE)]
      ++ spiWriteXY d x0 y0
      ++ spiWriteXY d x1 y1
      ++ spiWriteColor (to_int16 color)
      ++ [SPI_DC_HIGH].

Definition writeFastVLine (d : Adafruit_SSD1331) (x y h color : Z) : trace :=
  writeLine d x y x (to_int16 (y + h)) color.

Definition writeFastHLine (d : Adafruit_SSD1331) (x y w color : Z) : trace :=
  writeLine d x y (to_int16 (x + w)) y color.

Definition drawFastVLine (d : Adafruit_SSD1331) (x y h color : Z) : trace :=
  [startWrite] ++ writeFastVLine d x y h color ++ [endWrite].

Definition drawFastHLine (d : Adafruit_SSD1331) (x y w color : Z) : trace :=
  [startWrite] ++ writeFastHLine d x y w color ++ [endWrite].

Definition drawLine (d : Adafruit_SSD1331) (x0 y0 x1 y1 color : Z) : trace :=
  [startWrite] ++ writeLine d x0 y0 x1 y1 color ++ [endWrite].

(** ** Filled rectangles *)

Definition writeFillRect (d : Adafruit_SSD1331) (x y w h color : Z) : trace :=
  let x1 := to_int16 (x + w) in
  let y1 := to_int16 (y + h) in
  if (x1 <? 0) || (x >=? _width d) || (y1 <? 0) || (y >=? _height d)
  then []
  else
    let x := if x <? 0 then 0 else x in
    let x1 := if x1 >? _width d then _width d else x1 in
    let y := if y <? 0 then 0 else y in
    let y1 := if y1 >? _height d then _height d else y1 in
    if (x1 - 1 <? x) || (y1 - 1 <? y)
    then []
    else
      [SPI_DC_LOW]
        ++ (if color =? 0 then
              [spiWrite (Op SSD1331_CMD_CLEAR)]
                ++ spiWriteXY d x y
                ++ spiWriteXY d (to_int16 (x1 - 1)) (to_int16 (y1 - 1))
            else if (x =? x1) || (y =? y1) then
              writeLine d x y x1 y1 color
            else
              [spiWrite (Op SSD1331_CMD_FILL);
               spiWrite (Byte (to_uint8 0x01));
               spiWrite (Op SSD1331_CMD_DRAWRECT)]
                ++ spiWriteXY d x y
                ++ spiWriteXY d (to_int16 (x1 - 1)) (to_int16 (y1 - 1))
                ++ spiWriteColor (to_int16 color)
                ++ spiWriteColor (to_int16 color))
        ++ [SPI_DC_HIGH;
            delayMicroseconds (to_uint32 (Z.shiftr (to_int32 (w * h)) 2))].

Definition fillRect (d : Adafruit_SSD1331) (x y w h color : Z) : trace :=
  [startWrite] ++ writeFillRect d x y w h color ++ [endWrite].

Definition fillScreen (d : Adafruit_SSD1331) (color : Z) : trace :=
  fillRect d 0 0 (_width d) (_height d) color.

(** ** Unfilled rectangles *)

Definition drawRect (d : Adafruit_SSD1331) (x y w h color : Z) : trace :=
  if (x <? 0) || (x >=? _width d) ||
     (y <? 0) || (y >=? _height d) ||
     (w <=? 0) || (h <=? 0)
  then []
  else
    let x1 := to_int16 (x + w) in
    let y1 := to_int16 (y + h) in
    let x1 := if x1 >? _width d then _width d else x1 in
    let y1 := if y1 >=? _height d then _height d else y1 in
    [startWrite; SPI_DC_LOW;
     spiWrite (Op SSD1331_CMD_FILL);
     spiWrite (Byte (to_uint8 0x00));
     spiWrite (Op SSD1331_CMD_DRAWRECT)]
      ++ spiWriteXY d x y
      ++ spiWriteXY d (to_int16 (x1 - 1)) (to_int16 (y1 - 1))
      ++ spiWriteColor (to_int16 color)
      ++ spiWriteColor (to_int16 color)
      ++ [SPI_DC_HIGH; endWrite].

(** ** Block copy (the [SSD1331_EXTRAS] build) *)

(** One axis of the clipping of [copyBits]: the source origin [a], the
    destination origin [da] and the extent [e] against the bound [lim].
    The source runs the same statements once on [x], [dx], [w] and
    [_width] and once on [y], [dy], [h] and [_height]. *)
Definition copyClip (a da e lim : Z) : Z * Z * Z :=
  let min_a := Z.min a da in
  let max_a := Z.max a da + e in
  let clip := - min_a in
  let '(a, da, e) :=
    if clip >? 0
    then (to_int16 (a + clip), to_int16 (da + clip), to_int16 (e - clip))
    else (a, da, e) in
  let clip := max_a - lim in
  let e := if clip >? 0 then to_int16 (e - clip) else e in
  (a, da, e).

Definition copyBits (d : Adafruit_SSD1331) (x y w h dx dy : Z) (invert : bool)
  : trace :=
  let '(x, dx, w) := copyClip x dx w (_width d) in
  if w <=? 0 then []
  else
    let '(y, dy, h) := copyClip y dy h (_height d) in
    if h <=? 0 then []
    else
      [startWrite; SPI_DC_LOW;
       spiWrite (Op SSD1331_CMD_FILL);
       spiWrite (Byte (to_uint8 (if invert then 0x10 else 0x00)));
       spiWrite (Op SSD1331_CMD_COPY)]
        ++ spiWriteXY d x y
        ++ spiWriteXY d (to_int16 (x + w - 1)) (to_int16 (y + h - 1))
        ++ spiWriteXY d dx dy
        ++ [SPI_DC_HIGH; endWrite;
            delayMicroseconds (to_uint32 (Z.shiftr (to_int32 (w * h)) 2))].

(** ** Reference points *)

(** Modelled from the spec: [TFTWIDTH] and [TFTHEIGHT] come from the header,
    which is not among the sources; the spec and the comments of
    [writeFillRect] give the panel as 96 columns by 64 rows.  [panel r] is
    that device in rotation [r], as [setRotation] leaves it. *)
Definition panel (r : Z) : Adafruit_SSD1331 :=
  if negb (Z.land r 1 =? 0)
  then mkDriver 96 64 64 96 (Z.land r 3)
  else mkDriver 96 64 96 64 (Z.land r 3).

(** The frames of the two reachable branches of [writeFillRect], between
    the corners [(xa, ya)] and [(xb, yb)], both inclusive. *)
Definition clearFrame (d : Adafruit_SSD1331) (xa ya xb yb : Z) : trace :=
  [spiWrite (Op SSD1331_CMD_CLEAR)] ++ spiWriteXY d xa ya ++ spiWriteXY d xb yb.

Definition rectFrame (d : Adafruit_SSD1331) (fill : Z) (xa ya xb yb color : Z)
  : trace :=
  [spiWrite (Op SSD1331_CMD_FILL); spiWrite (Byte fill);
   spiWrite (Op SSD1331_CMD_DRAWRECT)]
    ++ spiWriteXY d xa ya ++ spiWriteXY d xb yb
    ++ spiWriteColor color ++ spiWriteColor color.

Definition lineFrame (d : Adafruit_SSD1331) (xa ya xb yb color : Z) : trace :=
  [spiWrite (Op SSD1331_CMD_DRAWLINE)]
    ++ spiWriteXY d xa ya ++ spiWriteXY d xb yb ++ spiWriteColor color.

(** The window the specification asks [fillRect] to address: the
    intersection of the requested rectangle with the logical bounds, with
    [x + w] and [y + h] the integer sums; [None] when it is empty. *)
Definition spec_fillWindow (d : Adafruit_SSD1331) (x y w h : Z)
  : option (Z * Z * Z * Z) :=
  let xa := Z.max x 0 in
  let ya := Z.max y 0 in
  let xb := Z.min (x + w) (_width d) - 1 in
  let yb := Z.min (y + h) (_height d) - 1 in
  if (xa <=? xb) && (ya <=? yb) then Some (xa, ya, xb, yb) else None.

(** A point of the logical screen [[0, _width) x [0, _height)]. *)
Definition on_screen (d : Adafruit_SSD1331) (x y : Z) : Prop :=
  0 <= x < _width d /\ 0 <= y < _height d.

(** The invariant of the device state: the logical dimensions are the
    physical ones, swapped exactly when the rotation is odd. *)
Definition dims_follow_rotation (d : Adafruit_SSD1331) : Prop :=
  (_width d, _height d) =
    if Z.odd (rotation d) then (HEIGHT d, WIDTH d) else (WIDTH d, HEIGHT d).

(** The colour operand as the specification words it, every channel
    "masked to 6 bits": [color >> 10], [color >> 5] and [color << 1], each
    under the mask [0x3F]. *)
Definition spec_spiWriteColor (color : Z) : trace :=
  [spiWrite (Byte (Z.land (Z.shiftr color 10) 0x3F));
   spiWrite (Byte (Z.land (Z.shiftr color 5) 0x3F));
   spiWrite (Byte (Z.land (Z.shiftl color 1) 0x3F))].

(** One axis of the block-copy clipping as the specification words it,
    over the integers: both origins move right together by the amount the
    smaller one is negative, the extent shrinks by as much, and then by the
    amount the larger origin plus the extent passes the bound. *)
Definition spec_copyClip (a da e lim : Z) : Z * Z * Z :=
  let shift := Z.max 0 (- Z.min a da) in
  let over := Z.max 0 (Z.max a da + e - lim) in
  (a + shift, da + shift, e - shift - over).

(** The moved origins and the shrunk extents of one axis fit in
    [int16_t], the type of the variables that hold them. *)
Definition copy_fits (a da e lim : Z) : Prop :=
  let shift := Z.max 0 (- Z.min a da) in
  let over := Z.max 0 (Z.max a da + e - lim) in
  is_int16 (a + shift) /\ is_int16 (da + shift) /\
  is_int16 (e - shift) /\ is_int16 (e - shift - over).

(** ** Scrolling text (the [SSD1331_EXTRAS] build) *)




(** ** The transport protocol *)



(** The 5-6-5 colour a triple of operand bytes stands for. *)
Definition decodeColor (r g b : Z) : Z := (r / 2) * 2048 + g * 32 + b / 2.

(** Case analysis on every integer comparison of the goal. *)
Ltac cmp_cases :=
  repeat match goal with
    | |- context [?a <? ?b] => destruct (Z.ltb_spec a b)
    | |- context [?a <=? ?b] => destruct (Z.leb_spec a b)
    | |- context [?a >? ?b] => rewrite (Z.gtb_ltb a b)
    | |- context [?a >=? ?b] => rewrite (Z.geb_leb a b)
    | |- context [?a =? ?b] => destruct (Z.eqb_spec a b)
    end;
  cbn [orb andb negb].

(** * Properties *)

(** ** Machine integers *)

Lemma to_int16_id v : is_int16 v -> to_int16 v = v.
Proof.
  unfold is_int16, to_int16. intros Hv.
  rewrite Z.mod_small; lia.
Qed.

Lemma to_int16_range v : is_int16 (to_int16 v).
Proof.
  unfold is_int16, to_int16.
  pose proof (Z.mod_pos_bound (v + 32768) 65536 ltac:(lia)). lia.
Qed.

Lemma to_int32_id v : -2147483648 <= v <= 2147483647 -> to_int32 v = v.
Proof.
  unfold to_int32. intros Hv.
  rewrite Z.mod_small; lia.
Qed.

Lemma to_int32_mul w h : is_int16 w -> is_int16 h -> to_int32 (w * h) = w * h.
Proof.
  unfold is_int16. intros Hw Hh. apply to_int32_id. nia.
Qed.

Lemma to_uint32_id v : 0 <= v <= 4294967295 -> to_uint32 v = v.
Proof.
  unfold to_uint32. intros Hv. apply Z.mod_small. lia.
Qed.

(** A quarter of the product of two non-negative 16-bit values is passed
    to [delayMicroseconds] unchanged. *)
Lemma to_uint32_quarter a b :
  0 <= a <= 32767 -> 0 <= b <= 32767 ->
  to_uint32 (Z.shiftr (a * b) 2) = Z.shiftr (a * b) 2.
Proof.
  intros Ha Hb. apply to_uint32_id.
  rewrite Z.shiftr_div_pow2 by lia. change (2 ^ 2) with 4.
  assert (0 <= a * b <= 32767 * 32767) by nia.
  Z.div_mod_to_equations. lia.
Qed.

Lemma to_uint8_id v : 0 <= v <= 255 -> to_uint8 v = v.
Proof.
  unfold to_uint8. intros Hv. apply Z.mod_small. lia.
Qed.

(** The clamping statements of the source are [Z.max] and [Z.min]. *)
Lemma clamp_low a : (if a <? 0 then 0 else a) = Z.max a 0.
Proof. destruct (Z.ltb_spec a 0); lia. Qed.

Lemma clamp_high a b : (if a >? b then b else a) = Z.min a b.
Proof. rewrite Z.gtb_ltb. destruct (Z.ltb_spec b a); lia. Qed.

Lemma clamp_high' a b : (if a >=? b then b else a) = Z.min a b.
Proof. rewrite Z.geb_leb. destruct (Z.leb_spec b a); lia. Qed.

(** ** Filled rectangles *)

Lemma writeFillRect_empty d x y w h color :
  let xa := Z.max x 0 in
  let ya := Z.max y 0 in
  let xb := Z.min (to_int16 (x + w)) (_width d) - 1 in
  let yb := Z.min (to_int16 (y + h)) (_height d) - 1 in
  ~ (xa <= xb /\ ya <= yb) -> writeFillRect d x y w h color = [].
Proof.
  unfold writeFillRect. cbv zeta. intros Hempty.
  rewrite !clamp_low, !clamp_high.
  cmp_cases; try reflexivity; exfalso; lia.
Qed.

Lemma writeFillRect_drawn d x y w h color :
  let xa := Z.max x 0 in
  let ya := Z.max y 0 in
  let xb := Z.min (to_int16 (x + w)) (_width d) - 1 in
  let yb := Z.min (to_int16 (y + h)) (_height d) - 1 in
  xa <= xb -> ya <= yb ->
  writeFillRect d x y w h color =
    [SPI_DC_LOW]
      ++ (if color =? 0 then clearFrame d xa ya xb yb
          else rectFrame d 1 xa ya xb yb (to_int16 color))
      ++ [SPI_DC_HIGH; delayMicroseconds (to_uint32 (Z.shiftr (to_int32 (w * h)) 2))].
Proof.
  unfold writeFillRect. cbv zeta. intros Hx Hy.
  pose proof (to_int16_range (x + w)) as Rx.
  pose proof (to_int16_range (y + h)) as Ry.
  unfold is_int16 in Rx, Ry.
  rewrite !clamp_low, !clamp_high.
  rewrite !(to_int16_id (Z.min _ _ - 1)) by (unfold is_int16; lia).
  replace ((to_int16 (x + w) <? 0) || (x >=? _width d)
           || (to_int16 (y + h) <? 0) || (y >=? _height d)) with false
    by (symmetry; cmp_cases; try reflexivity; exfalso; lia).
  replace ((Z.min (to_int16 (x + w)) (_width d) - 1 <? Z.max x 0)
           || (Z.min (to_int16 (y + h)) (_height d) - 1 <? Z.max y 0)) with false
    by (symmetry; cmp_cases; try reflexivity; exfalso; lia).
  replace ((Z.max x 0 =? Z.min (to_int16 (x + w)) (_width d))
           || (Z.max y 0 =? Z.min (to_int16 (y + h)) (_height d))) with false
    by (symmetry; cmp_cases; try reflexivity; exfalso; lia).
  unfold rectFrame, clearFrame. change (to_uint8 1) with 1.
  reflexivity.
Qed.

Lemma written_app t1 t2 : written (t1 ++ t2) = written t1 ++ written t2.
Proof.
  induction t1 as [|e t1 IH]; [reflexivity|].
  destruct e; cbn [app written]; rewrite IH; reflexivity.
Qed.

Lemma delays_app t1 t2 : delays (t1 ++ t2) = delays t1 ++ delays t2.
Proof.
  induction t1 as [|e t1 IH]; [reflexivity|].
  destruct e; cbn [app delays]; rewrite IH; reflexivity.
Qed.

(** On a panel of at most 256 columns and rows the two bytes of a
    coordinate pair are the coordinates themselves, [y] first exactly when
    the rotation is odd. *)
Lemma spiWriteXY_bytes d x y :
  0 <= x <= 255 -> 0 <= y <= 255 ->
  written (spiWriteXY d x y) =
    if swap d then [Byte y; Byte x] else [Byte x; Byte y].
Proof.
  intros Hx Hy. unfold spiWriteXY.
  destruct (swap d); cbn [written]; rewrite !to_uint8_id by lia; reflexivity.
Qed.

(** With sums that fit in [int16_t] the corners of [writeFillRect] are the
    window of the specification. *)
Lemma spec_fillWindow_exact d x y w h :
  is_int16 (x + w) -> is_int16 (y + h) ->
  spec_fillWindow d x y w h =
    let xa := Z.max x 0 in
    let ya := Z.max y 0 in
    let xb := Z.min (to_int16 (x + w)) (_width d) - 1 in
    let yb := Z.min (to_int16 (y + h)) (_height d) - 1 in
    if (xa <=? xb) && (ya <=? yb) then Some (xa, ya, xb, yb) else None.
Proof.
  intros Hx Hy. unfold spec_fillWindow.
  rewrite !to_int16_id by assumption. reflexivity.
Qed.

(** C1 (amended).  For every rectangle whose far edges [x + w] and [y + h]
    fit in [int16_t], every colour and every rotation, [writeFillRect]
    addresses exactly the intersection of the rectangle with the logical
    bounds: when the intersection is empty the trace is empty, and otherwise
    the one frame sent names the clamped corners [(max x 0, max y 0)] and
    [(min (x+w) _width - 1, min (y+h) _height - 1)], through [spiWriteXY]. *)
Theorem writeFillRect_addresses_intersection d x y w h color :
  is_int16 (x + w) -> is_int16 (y + h) ->
  writeFillRect d x y w h color =
    match spec_fillWindow d x y w h with
    | None => []
    | Some (xa, ya, xb, yb) =>
        [SPI_DC_LOW]
          ++ (if color =? 0 then clearFrame d xa ya xb yb
              else rectFrame d 1 xa ya xb yb (to_int16 color))
          ++ [SPI_DC_HIGH; delayMicroseconds (to_uint32 (Z.shiftr (to_int32 (w * h)) 2))]
    end.
Proof.
  intros Hx Hy. rewrite spec_fillWindow_exact by assumption. cbv zeta.
  destruct (Z.leb_spec (Z.max x 0) (Z.min (to_int16 (x + w)) (_width d) - 1)) as [Ha|Ha];
    destruct (Z.leb_spec (Z.max y 0) (Z.min (to_int16 (y + h)) (_height d) - 1)) as [Hb|Hb];
    cbn [andb].
  - apply writeFillRect_drawn; assumption.
  - apply writeFillRect_empty; lia.
  - apply writeFillRect_empty; lia.
  - apply writeFillRect_empty; lia.
Qed.

Lemma writeFillRect_addresses_intersection_witness :
  is_int16 (-5 + 20) /\ is_int16 (60 + 10) /\
  writeFillRect (panel 0) (-5) 60 20 10 0 =
    [SPI_DC_LOW; spiWrite (Op SSD1331_CMD_CLEAR);
     spiWrite (Byte 0); spiWrite (Byte 60);
     spiWrite (Byte 14); spiWrite (Byte 63);
     SPI_DC_HIGH; delayMicroseconds 50].
Proof.
  assert (H1 : is_int16 (-5 + 20)) by (unfold is_int16; lia).
  assert (H2 : is_int16 (60 + 10)) by (unfold is_int16; lia).
  split; [exact H1|]. split; [exact H2|].
  exact (writeFillRect_addresses_intersection (panel 0) (-5) 60 20 10 0 H1 H2).
Defined.

(** C1, as stated, fails where the 16-bit sum [x + w] wraps: the rectangle
    at column 10 of width 32767 meets the 96x64 screen in columns 10..95 and
    rows 0..9, and [writeFillRect] emits nothing for it. *)
Lemma writeFillRect_wrapped_sum_counterexample :
  is_int16 10 /\ is_int16 0 /\ is_int16 32767 /\
  spec_fillWindow (panel 0) 10 0 32767 10 = Some (10, 0, 95, 9) /\
  writeFillRect (panel 0) 10 0 32767 10 0xF800 = [].
Proof.
  unfold is_int16. repeat split; try lia; reflexivity.
Qed.

(** The line branch of [writeFillRect] is never taken: once the clipped
    rectangle is known to be non-empty its exclusive far edge differs from
    its near edge, so a non-zero colour always goes out as a fill-rectangle
    frame and no call writes the DRAWLINE opcode. *)
Lemma writeFillRect_never_line d x y w h color :
  ~ In (Op SSD1331_CMD_DRAWLINE) (written (writeFillRect d x y w h color)).
Proof.
  destruct (Z.le_gt_cases (Z.max x 0) (Z.min (to_int16 (x + w)) (_width d) - 1))
    as [Ha|Ha];
    [destruct (Z.le_gt_cases (Z.max y 0) (Z.min (to_int16 (y + h)) (_height d) - 1))
      as [Hb|Hb]|].
  - rewrite writeFillRect_drawn by assumption.
    unfold clearFrame, rectFrame, spiWriteXY, spiWriteColor.
    destruct (color =? 0); cbn [app written In]; intuition discriminate.
  - rewrite writeFillRect_empty by lia. intros [].
  - rewrite writeFillRect_empty by lia. intros [].
Qed.

(** The clear frame of a colour-0 fill, on the corners the code clamps to,
    with the far edges the 16-bit sums the code computes. *)
Lemma zero_fill_clear_frame d x y w h :
  let xa := Z.max x 0 in
  let ya := Z.max y 0 in
  let xb := Z.min (to_int16 (x + w)) (_width d) - 1 in
  let yb := Z.min (to_int16 (y + h)) (_height d) - 1 in
  xa <= xb -> ya <= yb ->
  writeFillRect d x y w h 0 =
    [SPI_DC_LOW; spiWrite (Op SSD1331_CMD_CLEAR)]
      ++ spiWriteXY d xa ya ++ spiWriteXY d xb yb
      ++ [SPI_DC_HIGH;
          delayMicroseconds (to_uint32 (Z.shiftr (to_int32 (w * h)) 2))].
Proof.
  intros xa ya xb yb Ha Hb.
  rewrite writeFillRect_drawn by assumption.
  unfold clearFrame. cbn [Z.eqb app]. rewrite <- !app_assoc. reflexivity.
Qed.

(** No fill of colour 0 writes the fill-enable or the draw-rectangle
    opcode, whatever its arguments. *)
Lemma zero_fill_never_rect d x y w h :
  ~ In (Op SSD1331_CMD_FILL) (written (fillRect d x y w h 0)) /\
  ~ In (Op SSD1331_CMD_DRAWRECT) (written (fillRect d x y w h 0)).
Proof.
  unfold fillRect.
  destruct (Z.le_gt_cases (Z.max x 0) (Z.min (to_int16 (x + w)) (_width d) - 1))
    as [Ha|Ha];
    [destruct (Z.le_gt_cases (Z.max y 0) (Z.min (to_int16 (y + h)) (_height d) - 1))
      as [Hb|Hb]|].
  - rewrite zero_fill_clear_frame by assumption.
    unfold spiWriteXY. cbn [app written In].
    split; intuition discriminate.
  - rewrite writeFillRect_empty by lia. cbn. split; intros [].
  - rewrite writeFillRect_empty by lia. cbn. split; intros [].
Qed.

(** C2 (amended).  A [writeFillRect] (and so a [fillRect]) of colour 0 whose
    far edges [x + w] and [y + h] fit in [int16_t] and whose rectangle
    meets the screen sends the CLEAR opcode followed by the two corner
    pairs of the intersection and nothing else.  No fill of colour 0, of
    whatever size, writes the fill-enable or the draw-rectangle opcode. *)
Theorem zero_fill_is_clear d x y w h xa ya xb yb :
  (is_int16 (x + w) -> is_int16 (y + h) ->
   spec_fillWindow d x y w h = Some (xa, ya, xb, yb) ->
   writeFillRect d x y w h 0 =
     [SPI_DC_LOW; spiWrite (Op SSD1331_CMD_CLEAR)]
       ++ spiWriteXY d xa ya ++ spiWriteXY d xb yb
       ++ [SPI_DC_HIGH;
           delayMicroseconds (to_uint32 (Z.shiftr (to_int32 (w * h)) 2))] /\
   fillRect d x y w h 0 =
     [startWrite; SPI_DC_LOW; spiWrite (Op SSD1331_CMD_CLEAR)]
       ++ spiWriteXY d xa ya ++ spiWriteXY d xb yb
       ++ [SPI_DC_HIGH;
           delayMicroseconds (to_uint32 (Z.shiftr (to_int32 (w * h)) 2));
           endWrite] /\
   written (fillRect d x y w h 0) =
     Op SSD1331_CMD_CLEAR :: written (spiWriteXY d xa ya ++ spiWriteXY d xb yb)) /\
  ~ In (Op SSD1331_CMD_FILL) (written (fillRect d x y w h 0)) /\
  ~ In (Op SSD1331_CMD_DRAWRECT) (written (fillRect d x y w h 0)).
Proof.
  split; [|apply zero_fill_never_rect].
  intros Hx Hy Hwin.
  rewrite spec_fillWindow_exact in Hwin by assumption. cbv zeta in Hwin.
  destruct (Z.leb_spec (Z.max x 0) (Z.min (to_int16 (x + w)) (_width d) - 1))
    as [Ha|Ha]; [|discriminate Hwin].
  destruct (Z.leb_spec (Z.max y 0) (Z.min (to_int16 (y + h)) (_height d) - 1))
    as [Hb|Hb]; [|discriminate Hwin].
  cbn [andb] in Hwin. injection Hwin as <- <- <- <-.
  assert (E : writeFillRect d x y w h 0 =
    [SPI_DC_LOW; spiWrite (Op SSD1331_CMD_CLEAR)]
      ++ spiWriteXY d (Z.max x 0) (Z.max y 0)
      ++ spiWriteXY d (Z.min (to_int16 (x + w)) (_width d) - 1)
                      (Z.min (to_int16 (y + h)) (_height d) - 1)
      ++ [SPI_DC_HIGH;
          delayMicroseconds (to_uint32 (Z.shiftr (to_int32 (w * h)) 2))])
    by (apply zero_fill_clear_frame; assumption).
  split; [exact E|].
  unfold fillRect. rewrite E. unfold spiWriteXY. split; reflexivity.
Qed.

Lemma zero_fill_is_clear_witness :
  (is_int16 (10 + 20) /\ is_int16 (10 + 20) /\
   spec_fillWindow (panel 0) 10 10 20 20 = Some (10, 10, 29, 29)) /\
  written (fillRect (panel 0) 10 10 20 20 0) =
    [Op SSD1331_CMD_CLEAR; Byte 10; Byte 10; Byte 29; Byte 29].
Proof.
  assert (H1 : is_int16 (10 + 20)) by (unfold is_int16; lia).
  assert (H2 : spec_fillWindow (panel 0) 10 10 20 20 = Some (10, 10, 29, 29))
    by reflexivity.
  split; [exact (conj H1 (conj H1 H2))|].
  exact (proj2 (proj2 (proj1
    (zero_fill_is_clear (panel 0) 10 10 20 20 10 10 29 29) H1 H1 H2))).
Defined.

(** C2, as stated, fails where the 16-bit sum [x + w] wraps: the rectangle
    at column 10 of width 32767 meets the 96x64 screen in columns 10..95 and
    rows 0..9, and [fillRect] of colour 0 opens and closes its transaction
    without writing a byte, so no CLEAR opcode goes out. *)
Lemma zero_fill_wrapped_sum_counterexample :
  (is_int16 10 /\ is_int16 0 /\ is_int16 32767) /\
  spec_fillWindow (panel 0) 10 0 32767 10 = Some (10, 0, 95, 9) /\
  fillRect (panel 0) 10 0 32767 10 0 = [startWrite; endWrite] /\
  written (fillRect (panel 0) 10 0 32767 10 0) = [].
Proof.
  unfold is_int16. repeat split; try lia; reflexivity.
Qed.

(** C3 fails on the code.  [fillRect(0,0,50,1,0x1234)] on the 96x64 panel,
    one row high and of non-zero colour, goes out as fill-enable and
    draw-rectangle with the colour twice, not as a line; no [fillRect] call
    at all writes the DRAWLINE opcode. *)
Theorem one_row_fill_is_not_a_line :
  writeFillRect (panel 0) 0 0 50 1 0x1234 =
    [SPI_DC_LOW;
     spiWrite (Op SSD1331_CMD_FILL); spiWrite (Byte 1);
     spiWrite (Op SSD1331_CMD_DRAWRECT);
     spiWrite (Byte 0); spiWrite (Byte 0);
     spiWrite (Byte 49); spiWrite (Byte 0);
     spiWrite (Byte 4); spiWrite (Byte 17); spiWrite (Byte 40);
     spiWrite (Byte 4); spiWrite (Byte 17); spiWrite (Byte 40);
     SPI_DC_HIGH; delayMicroseconds 12] /\
  (forall d x y w h color,
     ~ In (Op SSD1331_CMD_DRAWLINE) (written (fillRect d x y w h color))).
Proof.
  split; [reflexivity|].
  intros d x y w h color. unfold fillRect.
  rewrite !written_app. cbn [written app]. rewrite app_nil_r.
  apply writeFillRect_never_line.
Qed.

(** C9 (amended).  A [writeFillRect] call whose clipped rectangle is empty
    emits nothing and makes no delay.  Every other call writes one frame
    and then, as its last action, calls [delayMicroseconds] with
    [(w * h) >> 2] on the [w] and [h] the caller gave, converted to
    [unsigned int].  Whenever [x + w] and [y + h] fit in [int16_t] that
    product is positive and the wait is exactly [(w * h) >> 2]
    microseconds.  A full-panel [fillRect(0,0,96,64,color)] writes a frame
    and waits 1536 microseconds, in every rotation. *)
Theorem writeFillRect_delay d x y w h color :
  is_int16 w -> is_int16 h ->
  let xa := Z.max x 0 in
  let ya := Z.max y 0 in
  let xb := Z.min (to_int16 (x + w)) (_width d) - 1 in
  let yb := Z.min (to_int16 (y + h)) (_height d) - 1 in
  (~ (xa <= xb /\ ya <= yb) ->
   writeFillRect d x y w h color = [] /\
   delays (fillRect d x y w h color) = []) /\
  (xa <= xb /\ ya <= yb ->
   (exists frame,
      writeFillRect d x y w h color =
        [SPI_DC_LOW] ++ frame
          ++ [SPI_DC_HIGH;
              delayMicroseconds (to_uint32 (Z.shiftr (w * h) 2))] /\
      written frame <> [] /\ delays frame = []) /\
   delays (fillRect d x y w h color) = [to_uint32 (Z.shiftr (w * h) 2)] /\
   (is_int16 (x + w) -> is_int16 (y + h) ->
    0 < w /\ 0 < h /\
    delays (fillRect d x y w h color) = [Z.shiftr (w * h) 2])) /\
  (forall r c,
     written (fillRect (panel r) 0 0 96 64 c) <> [] /\
     delays (fillRect (panel r) 0 0 96 64 c) = [1536]).
Proof.
  intros Hw Hh xa ya xb yb. subst xa ya xb yb. split; [|split].
  - intros Hempty. unfold fillRect.
    rewrite writeFillRect_empty by assumption. split; reflexivity.
  - intros [Ha Hb].
    assert (E : writeFillRect d x y w h color =
      [SPI_DC_LOW]
        ++ (if color =? 0
            then clearFrame d (Z.max x 0) (Z.max y 0)
                   (Z.min (to_int16 (x + w)) (_width d) - 1)
                   (Z.min (to_int16 (y + h)) (_height d) - 1)
            else rectFrame d 1 (Z.max x 0) (Z.max y 0)
                   (Z.min (to_int16 (x + w)) (_width d) - 1)
                   (Z.min (to_int16 (y + h)) (_height d) - 1)
                   (to_int16 color))
        ++ [SPI_DC_HIGH;
            delayMicroseconds (to_uint32 (Z.shiftr (w * h) 2))]).
    { rewrite writeFillRect_drawn by assumption.
      rewrite to_int32_mul by assumption. reflexivity. }
    assert (D : delays (fillRect d x y w h color)
                = [to_uint32 (Z.shiftr (w * h) 2)]).
    { unfold fillRect. rewrite E. destruct (color =? 0); reflexivity. }
    split; [|split].
    + eexists. split; [exact E|].
      destruct (color =? 0); split; cbn; congruence.
    + exact D.
    + intros Hx Hy. rewrite D.
      rewrite (to_int16_id (x + w)) in Ha by assumption.
      rewrite (to_int16_id (y + h)) in Hb by assumption.
      unfold is_int16 in Hw, Hh.
      split; [lia|]. split; [lia|].
      rewrite to_uint32_quarter by lia. reflexivity.
  - intros r c. unfold fillRect, panel.
    destruct (Z.land r 1 =? 0); cbn [negb];
      rewrite writeFillRect_drawn by (cbn; lia);
      destruct (c =? 0); split; (reflexivity || discriminate).
Qed.

Lemma writeFillRect_delay_witness :
  (is_int16 100 /\ is_int16 100 /\
   (Z.max 90 0 <= Z.min (to_int16 (90 + 100)) (_width (panel 0)) - 1 /\
    Z.max 60 0 <= Z.min (to_int16 (60 + 100)) (_height (panel 0)) - 1) /\
   is_int16 (90 + 100) /\ is_int16 (60 + 100)) /\
  0 < 100 /\ 0 < 100 /\
  delays (fillRect (panel 0) 90 60 100 100 0xFFFF) = [Z.shiftr (100 * 100) 2].
Proof.
  assert (H : is_int16 100) by (unfold is_int16; lia).
  assert (Hc : Z.max 90 0 <= Z.min (to_int16 (90 + 100)) (_width (panel 0)) - 1 /\
               Z.max 60 0 <= Z.min (to_int16 (60 + 100)) (_height (panel 0)) - 1)
    by (cbn; lia).
  assert (Hx : is_int16 (90 + 100)) by (unfold is_int16; lia).
  assert (Hy : is_int16 (60 + 100)) by (unfold is_int16; lia).
  split; [exact (conj H (conj H (conj Hc (conj Hx Hy))))|].
  exact (proj2 (proj2 (proj1 (proj2
    (writeFillRect_delay (panel 0) 90 60 100 100 0xFFFF H H)) Hc)) Hx Hy).
Defined.

(** C9, as stated, fails where a 16-bit sum wraps and the product is
    negative.  From column -20000 with width -20000 the far edge wraps to
    25536; a clear frame over the whole top ten rows goes out, the [int]
    delay is [(-20000 * 10) >> 2 = -50000], and [delayMicroseconds]
    receives 4294917296. *)
Lemma writeFillRect_negative_product_counterexample :
  (is_int16 (-20000) /\ is_int16 0 /\ is_int16 10) /\
  Z.shiftr (-20000 * 10) 2 = -50000 /\
  writeFillRect (panel 0) (-20000) 0 (-20000) 10 0 =
    [SPI_DC_LOW; spiWrite (Op SSD1331_CMD_CLEAR);
     spiWrite (Byte 0); spiWrite (Byte 0);
     spiWrite (Byte 95); spiWrite (Byte 9);
     SPI_DC_HIGH; delayMicroseconds 4294917296] /\
  delays (writeFillRect (panel 0) (-20000) 0 (-20000) 10 0)
    <> [Z.shiftr (-20000 * 10) 2].
Proof.
  unfold is_int16. repeat split; try lia; try reflexivity.
  intros E. discriminate E.
Qed.

(** ** Lines *)

Lemma writeLine_rejected d x0 y0 x1 y1 color :
  ~ (on_screen d x0 y0 /\ on_screen d x1 y1) ->
  writeLine d x0 y0 x1 y1 color = [].
Proof.
  unfold on_screen, writeLine. intros Hout.
  cmp_cases; try reflexivity; exfalso; lia.
Qed.

Lemma writeLine_drawn d x0 y0 x1 y1 color :
  on_screen d x0 y0 -> on_screen d x1 y1 ->
  writeLine d x0 y0 x1 y1 color =
    [SPI_DC_LOW] ++ lineFrame d x0 y0 x1 y1 (to_int16 color) ++ [SPI_DC_HIGH].
Proof.
  unfold on_screen, writeLine. intros H0 H1.
  cmp_cases; try (exfalso; lia).
  unfold lineFrame. cbn [app]. rewrite <- !app_assoc. reflexivity.
Qed.

(** C4.  [writeLine], and so [drawLine], is all or nothing: with either
    end point off the logical screen no byte is written, also when only one
    end point is off, as for [drawLine(-1,5,10,5,c)] on the 96x64 screen;
    with both end points on the screen exactly one frame goes out, the
    DRAWLINE opcode, the two end-point pairs and one colour triple, and
    [drawLine] sends that frame inside its transaction. *)
Theorem writeLine_all_or_nothing d x0 y0 x1 y1 color :
  (~ (on_screen d x0 y0 /\ on_screen d x1 y1) ->
   writeLine d x0 y0 x1 y1 color = [] /\
   drawLine d x0 y0 x1 y1 color = [startWrite; endWrite]) /\
  (on_screen d x0 y0 -> on_screen d x1 y1 ->
   writeLine d x0 y0 x1 y1 color =
     [SPI_DC_LOW; spiWrite (Op SSD1331_CMD_DRAWLINE)]
       ++ spiWriteXY d x0 y0 ++ spiWriteXY d x1 y1
       ++ spiWriteColor (to_int16 color) ++ [SPI_DC_HIGH] /\
   drawLine d x0 y0 x1 y1 color =
     [startWrite; SPI_DC_LOW; spiWrite (Op SSD1331_CMD_DRAWLINE)]
       ++ spiWriteXY d x0 y0 ++ spiWriteXY d x1 y1
       ++ spiWriteColor (to_int16 color) ++ [SPI_DC_HIGH; endWrite]) /\
  (forall rot c,
     drawLine (mkDriver 96 64 96 64 rot) (-1) 5 10 5 c = [startWrite; endWrite] /\
     written (drawLine (mkDriver 96 64 96 64 rot) (-1) 5 10 5 c) = []).
Proof.
  split; [|split].
  - intros Hout. unfold drawLine.
    rewrite writeLine_rejected by assumption. split; reflexivity.
  - intros H0 H1. unfold drawLine.
    rewrite writeLine_drawn by assumption. split; reflexivity.
  - intros rot c. unfold drawLine.
    rewrite writeLine_rejected; [split; reflexivity|].
    unfold on_screen. cbn. lia.
Qed.

Lemma writeLine_all_or_nothing_witness :
  (on_screen (panel 0) 3 5 /\ on_screen (panel 0) 10 5) /\
  writeLine (panel 0) 3 5 10 5 0xF800 =
    [SPI_DC_LOW; spiWrite (Op SSD1331_CMD_DRAWLINE);
     spiWrite (Byte 3); spiWrite (Byte 5);
     spiWrite (Byte 10); spiWrite (Byte 5);
     spiWrite (Byte 62); spiWrite (Byte 0); spiWrite (Byte 0);
     SPI_DC_HIGH] /\
  drawLine (panel 0) 3 5 10 5 0xF800 =
    [startWrite; SPI_DC_LOW; spiWrite (Op SSD1331_CMD_DRAWLINE);
     spiWrite (Byte 3); spiWrite (Byte 5);
     spiWrite (Byte 10); spiWrite (Byte 5);
     spiWrite (Byte 62); spiWrite (Byte 0); spiWrite (Byte 0);
     SPI_DC_HIGH; endWrite].
Proof.
  assert (H0 : on_screen (panel 0) 3 5) by (unfold on_screen; cbn; lia).
  assert (H1 : on_screen (panel 0) 10 5) by (unfold on_screen; cbn; lia).
  split; [exact (conj H0 H1)|].
  exact (proj1 (proj2 (writeLine_all_or_nothing (panel 0) 3 5 10 5 0xF800)) H0 H1).
Defined.

(** The fast lines hand [writeLine] an end point one past the last pixel
    asked for.  The 16-bit sum can be read as the integer sum: where the two
    differ, [writeLine] rejects both. *)
Lemma writeLine_far_x d x y len color :
  is_int16 x -> is_int16 len -> is_int16 (_width d) ->
  writeLine d x y (to_int16 (x + len)) y color = writeLine d x y (x + len) y color.
Proof.
  unfold is_int16. intros Hx Hl Hw.
  destruct (Z.le_gt_cases (x + len) 32767) as [Hs|Hs];
    [destruct (Z.le_gt_cases (-32768) (x + len)) as [Hs'|Hs']|].
  - rewrite to_int16_id by (unfold is_int16; lia). reflexivity.
  - rewrite !writeLine_rejected; [reflexivity| |]; unfold on_screen; lia.
  - pose proof (to_int16_range (x + len)) as R. unfold is_int16 in R.
    assert (to_int16 (x + len) = x + len - 65536) as E.
    { unfold to_int16.
      replace (x + len + 32768) with (x + len - 32768 + 1 * 65536) by lia.
      rewrite Z.mod_add by lia. rewrite Z.mod_small; lia. }
    rewrite !writeLine_rejected; [reflexivity| |]; unfold on_screen; lia.
Qed.

Lemma writeLine_far_y d x y len color :
  is_int16 y -> is_int16 len -> is_int16 (_height d) ->
  writeLine d x y x (to_int16 (y + len)) color = writeLine d x y x (y + len) color.
Proof.
  unfold is_int16. intros Hy Hl Hh.
  destruct (Z.le_gt_cases (y + len) 32767) as [Hs|Hs];
    [destruct (Z.le_gt_cases (-32768) (y + len)) as [Hs'|Hs']|].
  - rewrite to_int16_id by (unfold is_int16; lia). reflexivity.
  - rewrite !writeLine_rejected; [reflexivity| |]; unfold on_screen; lia.
  - pose proof (to_int16_range (y + len)) as R. unfold is_int16 in R.
    assert (to_int16 (y + len) = y + len - 65536) as E.
    { unfold to_int16.
      replace (y + len + 32768) with (y + len - 32768 + 1 * 65536) by lia.
      rewrite Z.mod_add by lia. rewrite Z.mod_small; lia. }
    rewrite !writeLine_rejected; [reflexivity| |]; unfold on_screen; lia.
Qed.

(** C10.  [writeFastHLine(x, y, w, color)] is the general line call with
    second end point [(x + w, y)], and [writeFastVLine(x, y, h, color)] the
    one with [(x, y + h)].  [writeLine] rejects a coordinate equal to the
    logical bound, so a fast horizontal line that reaches the right edge
    exactly ([x + w = _width]) writes nothing, and likewise a fast vertical
    line with [y + h = _height]: the full-width and the full-height fast
    line are silent no-ops. *)
Theorem fast_line_to_the_edge_is_dropped d x y len color :
  is_int16 x -> is_int16 y -> is_int16 len ->
  is_int16 (_width d) -> is_int16 (_height d) ->
  writeFastHLine d x y len color = writeLine d x y (x + len) y color /\
  writeFastVLine d x y len color = writeLine d x y x (y + len) color /\
  (x + len = _width d ->
   writeFastHLine d x y len color = [] /\
   drawFastHLine d x y len color = [startWrite; endWrite]) /\
  (y + len = _height d ->
   writeFastVLine d x y len color = [] /\
   drawFastVLine d x y len color = [startWrite; endWrite]).
Proof.
  intros Hx Hy Hl Hw Hh.
  assert (EH : writeFastHLine d x y len color = writeLine d x y (x + len) y color)
    by (apply writeLine_far_x; assumption).
  assert (EV : writeFastVLine d x y len color = writeLine d x y x (y + len) color)
    by (apply writeLine_far_y; assumption).
  split; [exact EH|]. split; [exact EV|]. split.
  - intros Hedge. unfold drawFastHLine. rewrite EH.
    rewrite writeLine_rejected by (unfold on_screen; lia).
    split; reflexivity.
  - intros Hedge. unfold drawFastVLine. rewrite EV.
    rewrite writeLine_rejected by (unfold on_screen; lia).
    split; reflexivity.
Qed.

Lemma fast_line_to_the_edge_is_dropped_witness :
  (0 + 96 = _width (panel 0)) /\
  writeFastHLine (panel 0) 0 5 96 0xFFFF = [] /\
  drawFastHLine (panel 0) 0 5 96 0xFFFF = [startWrite; endWrite].
Proof.
  split; [reflexivity|].
  exact (proj1 (proj2 (proj2
    (fast_line_to_the_edge_is_dropped (panel 0) 0 5 96 0xFFFF
       ltac:(cbv; intuition discriminate) ltac:(cbv; intuition discriminate)
       ltac:(cbv; intuition discriminate) ltac:(cbv; intuition discriminate)
       ltac:(cbv; intuition discriminate)))) eq_refl).
Defined.

(** ** Rotation *)

Lemma land_3_cases r :
  Z.land r 3 = 0 \/ Z.land r 3 = 1 \/ Z.land r 3 = 2 \/ Z.land r 3 = 3.
Proof.
  assert (E : Z.land r 3 = r mod 2 ^ 2) by (apply (Z.land_ones r 2); lia).
  pose proof (Z.mod_pos_bound r (2 ^ 2) ltac:(lia)). lia.
Qed.

Lemma setRotation_physical rgb d r :
  WIDTH (fst (setRotation rgb d r)) = WIDTH d /\
  HEIGHT (fst (setRotation rgb d r)) = HEIGHT d.
Proof.
  unfold setRotation.
  destruct (negb (Z.land (Z.land r 3) 1 =? 0)); split; reflexivity.
Qed.

Lemma setRotation_invariant rgb d r :
  dims_follow_rotation (fst (setRotation rgb d r)).
Proof.
  unfold dims_follow_rotation, setRotation.
  destruct (land_3_cases r) as [E|[E|[E|E]]]; rewrite E; reflexivity.
Qed.

Lemma panel_setRotation rgb r :
  fst (setRotation rgb (mkDriver 96 64 96 64 0) r) = panel r.
Proof.
  unfold setRotation, panel. cbn [WIDTH HEIGHT fst].
  assert (E : Z.land (Z.land r 3) 1 = Z.land r 1).
  { rewrite <- Z.land_assoc. reflexivity. }
  rewrite E. destruct (Z.land r 1 =? 0); reflexivity.
Qed.

Lemma setRotations_cons rgb d r rs :
  fst (setRotations rgb d (r :: rs)) =
  fst (setRotations rgb (fst (setRotation rgb d r)) rs).
Proof.
  cbn [setRotations].
  destruct (setRotation rgb d r) as [d' t]. cbn [fst].
  destruct (setRotations rgb d' rs) as [d'' t']. reflexivity.
Qed.

Lemma setRotations_invariant rgb rs :
  forall d r, dims_follow_rotation (fst (setRotations rgb d (r :: rs))).
Proof.
  induction rs as [|r' rs IH]; intros d r.
  - rewrite setRotations_cons. apply setRotation_invariant.
  - rewrite setRotations_cons. apply IH.
Qed.

(** C7.  [setRotation r] stores [r & 0x03], sets [_width] and [_height]
    in the same call to [(HEIGHT, WIDTH)] when that rotation is odd and to
    [(WIDTH, HEIGHT)] when it is even, and sends the set-remap opcode with
    the colour-order bits ORed with the bits of that rotation.  After any
    run of [setRotation] calls the dimensions are swapped exactly when the
    rotation is odd. *)
Theorem setRotation_recomputes_dimensions rgb d r :
  let d' := fst (setRotation rgb d r) in
  rotation d' = Z.land r 0x03 /\
  (_width d', _height d') =
    (if Z.odd (Z.land r 0x03) then (HEIGHT d, WIDTH d) else (WIDTH d, HEIGHT d)) /\
  WIDTH d' = WIDTH d /\ HEIGHT d' = HEIGHT d /\
  snd (setRotation rgb d r) =
    [sendCommand (Op SSD1331_CMD_SETREMAP);
     sendCommand (Byte (Z.lor (if rgb then 0x60 else 0x64)
                          (nth (Z.to_nat (Z.land r 0x03))
                               [0x12; 0x03; 0x00; 0x11] 0)))] /\
  (forall rs, dims_follow_rotation (fst (setRotations rgb d (r :: rs)))).
Proof.
  cbv zeta. repeat split.
  - unfold setRotation.
    destruct (negb (Z.land (Z.land r 3) 1 =? 0)); reflexivity.
  - unfold setRotation.
    destruct (land_3_cases r) as [E|[E|[E|E]]]; rewrite E; reflexivity.
  - apply setRotation_physical.
  - apply setRotation_physical.
  - unfold setRotation, SETREMAP_COLOR_BITS.
    destruct (land_3_cases r) as [E|[E|[E|E]]]; rewrite E;
      destruct rgb; reflexivity.
  - intros rs. apply setRotations_invariant.
Qed.

(** ** Colour operand *)

Lemma land_0x3F a : Z.land a 0x3F = a mod 64.
Proof. change 0x3F with (Z.ones 6). apply Z.land_ones. lia. Qed.

Lemma land_0x3E a : Z.land a 0x3E = 2 * ((a / 2) mod 32).
Proof.
  replace (2 * ((a / 2) mod 32)) with (Z.shiftl (Z.land (Z.shiftr a 1) (Z.ones 5)) 1).
  - apply Z.bits_inj'. intros n Hn.
    rewrite Z.land_spec, Z.shiftl_spec by assumption.
    change 0x3E with (Z.shiftl (Z.ones 5) 1).
    rewrite Z.shiftl_spec by assumption.
    destruct (Z.eq_dec n 0) as [->|Hn0].
    + cbn. apply andb_false_r.
    + rewrite Z.land_spec, Z.shiftr_spec by lia.
      replace (n - 1 + 1) with n by lia. reflexivity.
  - rewrite Z.land_ones, Z.shiftr_div_pow2, Z.shiftl_mul_pow2 by lia.
    change (2 ^ 1) with 2. change (2 ^ 5) with 32. lia.
Qed.

Lemma to_int16_of_uint16 c :
  is_uint16 c -> to_int16 c = c \/ to_int16 c = c - 65536.
Proof.
  unfold is_uint16, to_int16. intros Hc.
  destruct (Z.lt_ge_cases c 32768).
  - left. rewrite Z.mod_small; lia.
  - right. replace (c + 32768) with (c - 32768 + 1 * 65536) by lia.
    rewrite Z.mod_add by lia. rewrite Z.mod_small; lia.
Qed.

(** C8 (amended).  For every 16-bit 5-6-5 colour the operand is three
    bytes: red is [(color >> 10) & 0x3E], green [(color >> 5) & 0x3F] and
    blue [(color << 1) & 0x3E], which for blue is also [& 0x3F].  They are
    the five red bits doubled, the six green bits and the five blue bits
    doubled. *)
Theorem spiWriteColor_channels c :
  is_uint16 c ->
  spiWriteColor (to_int16 c) =
    [spiWrite (Byte (Z.land (Z.shiftr c 10) 0x3E));
     spiWrite (Byte (Z.land (Z.shiftr c 5) 0x3F));
     spiWrite (Byte (Z.land (Z.shiftl c 1) 0x3F))] /\
  Z.land (Z.shiftr c 10) 0x3E = 2 * (c / 2048) /\
  Z.land (Z.shiftr c 5) 0x3F = (c / 32) mod 64 /\
  Z.land (Z.shiftl c 1) 0x3F = 2 * (c mod 32).
Proof.
  intros Hc. pose proof Hc as Hc'. unfold is_uint16 in Hc'.
  assert (R : forall v, v = c \/ v = c - 65536 ->
              Z.land (Z.shiftr v 10) 0x3E = 2 * (c / 2048)).
  { intros v Hv. rewrite land_0x3E, Z.shiftr_div_pow2 by lia.
    change (2 ^ 10) with 1024.
    destruct Hv as [-> | ->]; Z.div_mod_to_equations; lia. }
  assert (G : forall v, v = c \/ v = c - 65536 ->
              Z.land (Z.shiftr v 5) 0x3F = (c / 32) mod 64).
  { intros v Hv. rewrite land_0x3F, Z.shiftr_div_pow2 by lia.
    change (2 ^ 5) with 32.
    destruct Hv as [-> | ->]; Z.div_mod_to_equations; lia. }
  assert (B : forall v, v = c \/ v = c - 65536 ->
              Z.land (Z.shiftl v 1) 0x3E = 2 * (c mod 32)).
  { intros v Hv. rewrite land_0x3E, Z.shiftl_mul_pow2 by lia.
    change (2 ^ 1) with 2.
    destruct Hv as [-> | ->]; Z.div_mod_to_equations; lia. }
  assert (B' : Z.land (Z.shiftl c 1) 0x3F = 2 * (c mod 32)).
  { rewrite land_0x3F, Z.shiftl_mul_pow2 by lia.
    change (2 ^ 1) with 2. Z.div_mod_to_equations; lia. }
  pose proof (to_int16_of_uint16 c Hc) as Hv.
  repeat split.
  - unfold spiWriteColor.
    rewrite (R _ Hv), (G _ Hv), (B _ Hv).
    rewrite (R c), (G c), B' by (left; reflexivity).
    rewrite !to_uint8_id by (Z.div_mod_to_equations; lia).
    reflexivity.
  - apply R. left; reflexivity.
  - apply G. left; reflexivity.
  - exact B'.
Qed.

Lemma spiWriteColor_channels_witness :
  is_uint16 0x1234 /\
  spiWriteColor (to_int16 0x1234) =
    [spiWrite (Byte 4); spiWrite (Byte 17); spiWrite (Byte 40)].
Proof.
  assert (H : is_uint16 0x1234) by (unfold is_uint16; lia).
  split; [exact H|].
  exact (proj1 (spiWriteColor_channels 0x1234 H)).
Defined.

(** C8, as stated, fails for red: in the colour [0x0400], whose only set
    bit is the top bit of green, [(color >> 10)] masked to six bits is 1,
    and the red byte sent is 0. *)
Lemma spiWriteColor_red_mask_counterexample :
  is_uint16 0x0400 /\
  spec_spiWriteColor 0x0400 =
    [spiWrite (Byte 1); spiWrite (Byte 32); spiWrite (Byte 0)] /\
  spiWriteColor (to_int16 0x0400) =
    [spiWrite (Byte 0); spiWrite (Byte 32); spiWrite (Byte 0)] /\
  spiWriteColor (to_int16 0x0400) <> spec_spiWriteColor 0x0400.
Proof.
  unfold is_uint16. repeat split; try lia; try reflexivity.
  intros E. discriminate E.
Qed.

(** ** Unfilled rectangles *)

Lemma drawRect_rejected d x y w h color :
  ~ (on_screen d x y /\ 0 < w /\ 0 < h) -> drawRect d x y w h color = [].
Proof.
  unfold on_screen, drawRect. intros Hout.
  cmp_cases; try reflexivity; exfalso; lia.
Qed.

Lemma drawRect_drawn d x y w h color :
  on_screen d x y -> 0 < w -> 0 < h ->
  drawRect d x y w h color =
    [startWrite; SPI_DC_LOW]
      ++ rectFrame d 0 x y
           (to_int16 (Z.min (to_int16 (x + w)) (_width d) - 1))
           (to_int16 (Z.min (to_int16 (y + h)) (_height d) - 1))
           (to_int16 color)
      ++ [SPI_DC_HIGH; endWrite].
Proof.
  unfold on_screen, drawRect. intros Hxy Hw Hh. cbv zeta.
  rewrite clamp_high, clamp_high'.
  replace ((x <? 0) || (x >=? _width d) || (y <? 0) || (y >=? _height d)
           || (w <=? 0) || (h <=? 0)) with false
    by (symmetry; cmp_cases; try reflexivity; exfalso; lia).
  unfold rectFrame. change (to_uint8 0) with 0. cbn [app].
  rewrite <- !app_assoc. reflexivity.
Qed.




(** ** Block copy *)

Lemma copyClip_exact a da e lim :
  copy_fits a da e lim -> copyClip a da e lim = spec_copyClip a da e lim.
Proof.
  unfold copy_fits, copyClip, spec_copyClip, is_int16. cbv zeta.
  intros (Ha & Hda & He & He').
  rewrite !Z.gtb_ltb.
  destruct (Z.ltb_spec 0 (- Z.min a da)) as [Hs|Hs];
    destruct (Z.ltb_spec 0 (Z.max a da + e - lim)) as [Ho|Ho].
  - rewrite (to_int16_id (a + - Z.min a da)) by (unfold is_int16; lia).
    rewrite (to_int16_id (da + - Z.min a da)) by (unfold is_int16; lia).
    rewrite (to_int16_id (e - - Z.min a da)) by (unfold is_int16; lia).
    rewrite to_int16_id by (unfold is_int16; lia).
    f_equal; [f_equal|]; lia.
  - rewrite (to_int16_id (a + - Z.min a da)) by (unfold is_int16; lia).
    rewrite (to_int16_id (da + - Z.min a da)) by (unfold is_int16; lia).
    rewrite (to_int16_id (e - - Z.min a da)) by (unfold is_int16; lia).
    f_equal; [f_equal|]; lia.
  - rewrite to_int16_id by (unfold is_int16; lia).
    f_equal; [f_equal|]; lia.
  - f_equal; [f_equal|]; lia.
Qed.

(** What the clipping of one axis achieves: neither origin is negative,
    and with a positive extent both intervals end within the bound. *)
Lemma spec_copyClip_inside a da e lim :
  let '(a', da', e') := spec_copyClip a da e lim in
  0 <= a' /\ 0 <= da' /\ a' + e' <= lim /\ da' + e' <= lim /\ e' <= e.
Proof.
  unfold spec_copyClip. cbv zeta. lia.
Qed.

(** Arguments of 15 bits leave room for every update of the clipping. *)
Lemma copy_fits_small a da e lim :
  -16384 <= a <= 16383 -> -16384 <= da <= 16383 -> -16384 <= e <= 16383 ->
  0 <= lim <= 32767 ->
  copy_fits a da e lim.
Proof.
  unfold copy_fits, is_int16. cbv zeta. lia.
Qed.

(** C5 (amended).  Provided the moved origins and the shrunk extents fit in
    [int16_t], [copyBits] moves source and destination origin together by
    the amount their minimum is negative, shrinks the extent by that amount
    and by the amount their maximum plus the extent passes the edge, the
    same on each axis, and emits nothing when an extent comes out as zero or
    less.  The copy it emits has both rectangles inside the logical screen,
    so no coordinate sent is negative.  [copyBits(0,0,96,64,0,-8,false)] on
    the 96x64 panel copies 56 rows from source row 8 to destination row 0. *)
Theorem copyBits_clips_both_rectangles d x y w h dx dy invert :
  copy_fits x dx w (_width d) -> copy_fits y dy h (_height d) ->
  is_int16 (_width d) -> is_int16 (_height d) ->
  let '(x', dx', w') := spec_copyClip x dx w (_width d) in
  let '(y', dy', h') := spec_copyClip y dy h (_height d) in
  (w' <= 0 \/ h' <= 0 -> copyBits d x y w h dx dy invert = []) /\
  (0 < w' -> 0 < h' ->
   copyBits d x y w h dx dy invert =
     [startWrite; SPI_DC_LOW;
      spiWrite (Op SSD1331_CMD_FILL);
      spiWrite (Byte (if invert then 0x10 else 0x00));
      spiWrite (Op SSD1331_CMD_COPY)]
       ++ spiWriteXY d x' y'
       ++ spiWriteXY d (x' + w' - 1) (y' + h' - 1)
       ++ spiWriteXY d dx' dy'
       ++ [SPI_DC_HIGH; endWrite; delayMicroseconds (Z.shiftr (w' * h') 2)] /\
   (0 <= x' /\ x' + w' - 1 < _width d) /\
   (0 <= y' /\ y' + h' - 1 < _height d) /\
   (0 <= dx' /\ dx' + w' - 1 < _width d) /\
   (0 <= dy' /\ dy' + h' - 1 < _height d)) /\
  copyBits (panel 0) 0 0 96 64 0 (-8) false =
    [startWrite; SPI_DC_LOW;
     spiWrite (Op SSD1331_CMD_FILL); spiWrite (Byte 0);
     spiWrite (Op SSD1331_CMD_COPY);
     spiWrite (Byte 0); spiWrite (Byte 8);
     spiWrite (Byte 95); spiWrite (Byte 63);
     spiWrite (Byte 0); spiWrite (Byte 0);
     SPI_DC_HIGH; endWrite; delayMicroseconds 1344].
Proof.
  intros Fx Fy Wd Hd.
  pose proof (copyClip_exact _ _ _ _ Fx) as Ex.
  pose proof (copyClip_exact _ _ _ _ Fy) as Ey.
  pose proof (spec_copyClip_inside x dx w (_width d)) as Ix.
  pose proof (spec_copyClip_inside y dy h (_height d)) as Iy.
  assert (Rx : let '(_, _, w') := spec_copyClip x dx w (_width d) in is_int16 w')
    by (unfold spec_copyClip; cbv zeta; apply Fx).
  assert (Ry : let '(_, _, h') := spec_copyClip y dy h (_height d) in is_int16 h')
    by (unfold spec_copyClip; cbv zeta; apply Fy).
  unfold copyBits. rewrite Ex, Ey.
  destruct (spec_copyClip x dx w (_width d)) as [[x' dx'] w'].
  destruct (spec_copyClip y dy h (_height d)) as [[y' dy'] h'].
  unfold is_int16 in Wd, Hd, Rx, Ry.
  split; [|split].
  - intros Hempty.
    destruct (Z.leb_spec w' 0); [reflexivity|].
    destruct (Z.leb_spec h' 0); [reflexivity|]. lia.
  - intros Hw Hh.
    destruct (Z.leb_spec w' 0); [lia|].
    destruct (Z.leb_spec h' 0); [lia|].
    rewrite !to_int16_id by (unfold is_int16; lia).
    rewrite to_int32_mul by (unfold is_int16; lia).
    rewrite to_uint32_quarter by lia.
    split; [destruct invert; reflexivity|]. lia.
  - reflexivity.
Qed.

Lemma copyBits_clips_both_rectangles_witness :
  (copy_fits 0 0 96 (_width (panel 0)) /\
   copy_fits 0 (-8) 64 (_height (panel 0)) /\
   is_int16 (_width (panel 0)) /\ is_int16 (_height (panel 0))) /\
  (0 < 96 /\ 0 < 56) /\
  copyBits (panel 0) 0 0 96 64 0 (-8) true =
    [startWrite; SPI_DC_LOW;
     spiWrite (Op SSD1331_CMD_FILL); spiWrite (Byte 16);
     spiWrite (Op SSD1331_CMD_COPY);
     spiWrite (Byte 0); spiWrite (Byte 8);
     spiWrite (Byte 95); spiWrite (Byte 63);
     spiWrite (Byte 0); spiWrite (Byte 0);
     SPI_DC_HIGH; endWrite; delayMicroseconds 1344].
Proof.
  assert (Fx : copy_fits 0 0 96 (_width (panel 0)))
    by (apply copy_fits_small; cbn; lia).
  assert (Fy : copy_fits 0 (-8) 64 (_height (panel 0)))
    by (apply copy_fits_small; cbn; lia).
  assert (Wd : is_int16 (_width (panel 0))) by (unfold is_int16; cbn; lia).
  assert (Hd : is_int16 (_height (panel 0))) by (unfold is_int16; cbn; lia).
  assert (Hw : 0 < 96) by lia.
  assert (Hh : 0 < 56) by lia.
  split; [exact (conj Fx (conj Fy (conj Wd Hd)))|].
  split; [exact (conj Hw Hh)|].
  exact (proj1 (proj1 (proj2
    (copyBits_clips_both_rectangles (panel 0) 0 0 96 64 0 (-8) true
       Fx Fy Wd Hd)) Hw Hh)).
Defined.

(** C5, as stated, fails where a 16-bit update wraps.  Copying from column
    32767 to column -32768 moves both origins by 32768: over the integers
    the extent left is negative and nothing should be sent, but the source
    column held in [int16_t] becomes -1 and the extent 97, and a copy of
    source columns -1..95 (byte 255 on the wire) is emitted. *)
Lemma copyBits_wrapped_update_counterexample :
  (is_int16 32767 /\ is_int16 (-32768) /\ is_int16 100) /\
  spec_copyClip 32767 (-32768) 100 (_width (panel 0)) = (65535, 0, -65439) /\
  copyClip 32767 (-32768) 100 (_width (panel 0)) = (-1, 0, 97) /\
  copyBits (panel 0) 32767 0 100 10 (-32768) 0 false =
    [startWrite; SPI_DC_LOW;
     spiWrite (Op SSD1331_CMD_FILL); spiWrite (Byte 0);
     spiWrite (Op SSD1331_CMD_COPY);
     spiWrite (Byte 255); spiWrite (Byte 0);
     spiWrite (Byte 95); spiWrite (Byte 9);
     spiWrite (Byte 0); spiWrite (Byte 0);
     SPI_DC_HIGH; endWrite; delayMicroseconds 242].
Proof.
  unfold is_int16. repeat split; try lia; reflexivity.
Qed.

(** * Further properties of the driver *)

(** ** What a filled rectangle can address *)

Lemma writeFillRect_cases d x y w h color :
  writeFillRect d x y w h color = [] \/
  exists xa ya xb yb,
    writeFillRect d x y w h color =
      [SPI_DC_LOW]
        ++ (if color =? 0 then clearFrame d xa ya xb yb
            else rectFrame d 1 xa ya xb yb (to_int16 color))
        ++ [SPI_DC_HIGH; delayMicroseconds (to_uint32 (Z.shiftr (to_int32 (w * h)) 2))].
Proof.
  destruct (Z.le_gt_cases (Z.max x 0) (Z.min (to_int16 (x + w)) (_width d) - 1))
    as [Ha|Ha];
    [destruct (Z.le_gt_cases (Z.max y 0) (Z.min (to_int16 (y + h)) (_height d) - 1))
      as [Hb|Hb]|].
  - right. do 4 eexists. apply writeFillRect_drawn; assumption.
  - left. apply writeFillRect_empty. lia.
  - left. apply writeFillRect_empty. lia.
Qed.

(** Whatever the arguments, also where the 16-bit sums wrap, a
    [writeFillRect] that emits names two corners of the logical screen, the
    first not beyond the second on either axis: the controller is never
    handed a coordinate off the screen or an inverted window. *)
Theorem writeFillRect_stays_on_screen d x y w h color :
  writeFillRect d x y w h color = [] \/
  exists xa ya xb yb,
    on_screen d xa ya /\ on_screen d xb yb /\ xa <= xb /\ ya <= yb /\
    writeFillRect d x y w h color =
      [SPI_DC_LOW]
        ++ (if color =? 0 then clearFrame d xa ya xb yb
            else rectFrame d 1 xa ya xb yb (to_int16 color))
        ++ [SPI_DC_HIGH; delayMicroseconds (to_uint32 (Z.shiftr (to_int32 (w * h)) 2))].
Proof.
  destruct (Z.le_gt_cases (Z.max x 0) (Z.min (to_int16 (x + w)) (_width d) - 1))
    as [Ha|Ha];
    [destruct (Z.le_gt_cases (Z.max y 0) (Z.min (to_int16 (y + h)) (_height d) - 1))
      as [Hb|Hb]|].
  - right.
    exists (Z.max x 0), (Z.max y 0),
      (Z.min (to_int16 (x + w)) (_width d) - 1),
      (Z.min (to_int16 (y + h)) (_height d) - 1).
    unfold on_screen.
    repeat split; try lia.
    apply writeFillRect_drawn; assumption.
  - left. apply writeFillRect_empty. lia.
  - left. apply writeFillRect_empty. lia.
Qed.

(** ** Frame sizes *)

Lemma copyBits_cases d x y w h dx dy invert :
  copyBits d x y w h dx dy invert = [] \/
  exists xa ya xb yb da db us,
    copyBits d x y w h dx dy invert =
      [startWrite; SPI_DC_LOW;
       spiWrite (Op SSD1331_CMD_FILL);
       spiWrite (Byte (if invert then 0x10 else 0x00));
       spiWrite (Op SSD1331_CMD_COPY)]
        ++ spiWriteXY d xa ya ++ spiWriteXY d xb yb ++ spiWriteXY d da db
        ++ [SPI_DC_HIGH; endWrite; delayMicroseconds us].
Proof.
  unfold copyBits.
  destruct (copyClip x dx w (_width d)) as [[x' dx'] w'].
  destruct (w' <=? 0); [left; reflexivity|].
  destruct (copyClip y dy h (_height d)) as [[y' dy'] h'].
  destruct (h' <=? 0); [left; reflexivity|].
  right. do 7 eexists. destruct invert; reflexivity.
Qed.

Lemma drawRect_cases d x y w h color :
  drawRect d x y w h color = [] \/
  exists xb yb,
    drawRect d x y w h color =
      [startWrite; SPI_DC_LOW]
        ++ rectFrame d 0 x y xb yb (to_int16 color)
        ++ [SPI_DC_HIGH; endWrite].
Proof.
  assert (D : (on_screen d x y /\ 0 < w /\ 0 < h) \/
              ~ (on_screen d x y /\ 0 < w /\ 0 < h))
    by (unfold on_screen; lia).
  destruct D as [[Hxy [Hw Hh]] | Hout].
  - right. do 2 eexists. apply drawRect_drawn; assumption.
  - left. apply drawRect_rejected. assumption.
Qed.

Lemma writeLine_cases d x0 y0 x1 y1 color :
  writeLine d x0 y0 x1 y1 color = [] \/
  writeLine d x0 y0 x1 y1 color =
    [SPI_DC_LOW] ++ lineFrame d x0 y0 x1 y1 (to_int16 color) ++ [SPI_DC_HIGH].
Proof.
  assert (D : (on_screen d x0 y0 /\ on_screen d x1 y1) \/
              ~ (on_screen d x0 y0 /\ on_screen d x1 y1))
    by (unfold on_screen; lia).
  destruct D as [[H0 H1] | Hout].
  - right. apply writeLine_drawn; assumption.
  - left. apply writeLine_rejected. assumption.
Qed.

(** The byte counts the comments of [writeFillRect] give hold of every
    call: a fill writes no byte, or the 5 bytes of a clear when the colour
    is 0, or the 13 bytes of a filled rectangle otherwise; a line writes 0
    or 8 bytes, an unfilled rectangle 0 or 13, a block copy 0 or 9. *)
Theorem frame_byte_counts d x y w h color :
  (length (written (writeFillRect d x y w h color)) = 0%nat \/
   (color = 0 /\ length (written (writeFillRect d x y w h color)) = 5%nat) \/
   (color <> 0 /\ length (written (writeFillRect d x y w h color)) = 13%nat)) /\
  (forall x1 y1,
     length (written (writeLine d x y x1 y1 color)) = 0%nat \/
     length (written (writeLine d x y x1 y1 color)) = 8%nat) /\
  (length (written (drawRect d x y w h color)) = 0%nat \/
   length (written (drawRect d x y w h color)) = 13%nat) /\
  (forall dx dy invert,
     length (written (copyBits d x y w h dx dy invert)) = 0%nat \/
     length (written (copyBits d x y w h dx dy invert)) = 9%nat).
Proof.
  repeat split.
  - destruct (writeFillRect_cases d x y w h color)
      as [E | (xa & ya & xb & yb & E)]; rewrite E.
    + left. reflexivity.
    + right. destruct (Z.eqb_spec color 0) as [Hc|Hc].
      * left. split; [assumption | reflexivity].
      * right. split; [assumption | reflexivity].
  - intros x1 y1.
    destruct (writeLine_cases d x y x1 y1 color) as [E|E]; rewrite E.
    + left. reflexivity.
    + right. reflexivity.
  - destruct (drawRect_cases d x y w h color) as [E | (xb & yb & E)]; rewrite E.
    + left. reflexivity.
    + right. reflexivity.
  - intros dx dy invert.
    destruct (copyBits_cases d x y w h dx dy invert)
      as [E | (xa & ya & xb & yb & da & db & us & E)]; rewrite E.
    + left. reflexivity.
    + right. reflexivity.
Qed.

(** ** The transport protocol *)




(** ** Rotation *)

Lemma land_3_period r : Z.land (r + 4) 3 = Z.land r 3.
Proof.
  assert (E : forall v, Z.land v 3 = v mod 2 ^ 2)
    by (intros v; apply (Z.land_ones v 2); lia).
  rewrite !E. change (2 ^ 2) with 4.
  replace (r + 4) with (r + 1 * 4) by lia. apply Z.mod_add. lia.
Qed.

(** [setRotation] keeps no memory of earlier rotations: the state and the
    trace of a call are those the same call gives on the state before any
    earlier [setRotation], so a repeated call sends the same two commands
    and changes nothing; and the argument counts modulo 4. *)
Theorem setRotation_last_call_wins rgb d r1 r2 :
  setRotation rgb (fst (setRotation rgb d r1)) r2 = setRotation rgb d r2 /\
  setRotation rgb (fst (setRotation rgb d r2)) r2 =
    (fst (setRotation rgb d r2), snd (setRotation rgb d r2)) /\
  setRotation rgb d (r2 + 4) = setRotation rgb d r2.
Proof.
  assert (E : forall a b,
            setRotation rgb (fst (setRotation rgb d a)) b = setRotation rgb d b).
  { intros a b. unfold setRotation.
    destruct (negb (Z.land (Z.land a 3) 1 =? 0));
      destruct (negb (Z.land (Z.land b 3) 1 =? 0)); reflexivity. }
  split; [apply E|]. split.
  - rewrite E. destruct (setRotation rgb d r2). reflexivity.
  - unfold setRotation. rewrite land_3_period. reflexivity.
Qed.

Lemma swap_odd d : swap d = Z.odd (rotation d).
Proof.
  unfold swap.
  assert (E : Z.land (rotation d) 1 = rotation d mod 2 ^ 1)
    by (apply (Z.land_ones (rotation d) 1); lia).
  rewrite E. change (2 ^ 1) with 2.
  rewrite Zmod_odd. destruct (Z.odd (rotation d)); reflexivity.
Qed.

(** ** Logical and physical coordinates *)

(** In a state that keeps the invariant of [setRotation], on a panel of at
    most 256 columns and rows, the pair [spiWriteXY] sends for a point of
    the logical screen is a physical address of the panel: a column below
    [WIDTH] first and a row below [HEIGHT] second.  It is [(x, y)] in the
    even rotations and [(y, x)] in the odd ones. *)
Theorem spiWriteXY_physical_address d x y :
  dims_follow_rotation d -> WIDTH d <= 256 -> HEIGHT d <= 256 ->
  on_screen d x y ->
  exists col row,
    spiWriteXY d x y = [spiWrite (Byte col); spiWrite (Byte row)] /\
    0 <= col < WIDTH d /\ 0 <= row < HEIGHT d /\
    (col, row) = if Z.odd (rotation d) then (y, x) else (x, y).
Proof.
  unfold dims_follow_rotation, on_screen, spiWriteXY.
  intros Hinv HW HH [Hx Hy]. rewrite swap_odd.
  destruct (Z.odd (rotation d)); injection Hinv as Ew Eh.
  - exists y, x. rewrite !to_uint8_id by lia. repeat split; lia.
  - exists x, y. rewrite !to_uint8_id by lia. repeat split; lia.
Qed.

Lemma spiWriteXY_physical_address_witness :
  (dims_follow_rotation (panel 1) /\ WIDTH (panel 1) <= 256 /\
   HEIGHT (panel 1) <= 256 /\ on_screen (panel 1) 63 95) /\
  exists col row,
    spiWriteXY (panel 1) 63 95 = [spiWrite (Byte col); spiWrite (Byte row)] /\
    0 <= col < WIDTH (panel 1) /\ 0 <= row < HEIGHT (panel 1) /\
    (col, row) = if Z.odd (rotation (panel 1)) then (95, 63) else (63, 95).
Proof.
  assert (H0 : dims_follow_rotation (panel 1)) by reflexivity.
  assert (H1 : WIDTH (panel 1) <= 256) by (cbn; lia).
  assert (H2 : HEIGHT (panel 1) <= 256) by (cbn; lia).
  assert (H3 : on_screen (panel 1) 63 95) by (unfold on_screen; cbn; lia).
  split; [exact (conj H0 (conj H1 (conj H2 H3)))|].
  exact (spiWriteXY_physical_address (panel 1) 63 95 H0 H1 H2 H3).
Defined.

(** For a window inside the logical screen, in a state that keeps the
    invariant of [setRotation], [setAddrWindow] sets a column range inside
    [[0, WIDTH)] and a row range inside [[0, HEIGHT)], each as first and
    last index with the first not after the last.  In the odd rotations the
    logical [x] range is the row range and is sent first. *)
Theorem setAddrWindow_physical_ranges d x y w h :
  dims_follow_rotation d -> WIDTH d <= 256 -> HEIGHT d <= 256 ->
  0 <= x -> 0 < w -> x + w <= _width d ->
  0 <= y -> 0 < h -> y + h <= _height d ->
  exists c0 c1 r0 r1,
    0 <= c0 <= c1 /\ c1 < WIDTH d /\ 0 <= r0 <= r1 /\ r1 < HEIGHT d /\
    setAddrWindow d x y w h =
      (if Z.odd (rotation d)
       then [SPI_DC_LOW;
             spiWrite (Op SSD1331_CMD_SETROW);
             spiWrite (Byte r0); spiWrite (Byte r1);
             spiWrite (Op SSD1331_CMD_SETCOLUMN);
             spiWrite (Byte c0); spiWrite (Byte c1);
             SPI_DC_HIGH]
       else [SPI_DC_LOW;
             spiWrite (Op SSD1331_CMD_SETCOLUMN);
             spiWrite (Byte c0); spiWrite (Byte c1);
             spiWrite (Op SSD1331_CMD_SETROW);
             spiWrite (Byte r0); spiWrite (Byte r1);
             SPI_DC_HIGH]) /\
    (c0, c1, r0, r1) =
      (if Z.odd (rotation d)
       then (y, y + h - 1, x, x + w - 1)
       else (x, x + w - 1, y, y + h - 1)).
Proof.
  unfold dims_follow_rotation, setAddrWindow.
  intros Hinv HW HH Hx Hw Hxw Hy Hh Hyh. rewrite swap_odd.
  destruct (Z.odd (rotation d)); injection Hinv as Ew Eh.
  - exists y, (y + h - 1), x, (x + w - 1).
    rewrite !to_uint8_id by lia. repeat split; lia.
  - exists x, (x + w - 1), y, (y + h - 1).
    rewrite !to_uint8_id by lia. repeat split; lia.
Qed.

Lemma setAddrWindow_physical_ranges_witness :
  (dims_follow_rotation (panel 3) /\ WIDTH (panel 3) <= 256 /\
   HEIGHT (panel 3) <= 256 /\
   0 <= 0 /\ 0 < 64 /\ 0 + 64 <= _width (panel 3) /\
   0 <= 90 /\ 0 < 6 /\ 90 + 6 <= _height (panel 3)) /\
  exists c0 c1 r0 r1,
    0 <= c0 <= c1 /\ c1 < WIDTH (panel 3) /\
    0 <= r0 <= r1 /\ r1 < HEIGHT (panel 3) /\
    setAddrWindow (panel 3) 0 90 64 6 =
      (if Z.odd (rotation (panel 3))
       then [SPI_DC_LOW;
             spiWrite (Op SSD1331_CMD_SETROW);
             spiWrite (Byte r0); spiWrite (Byte r1);
             spiWrite (Op SSD1331_CMD_SETCOLUMN);
             spiWrite (Byte c0); spiWrite (Byte c1);
             SPI_DC_HIGH]
       else [SPI_DC_LOW;
             spiWrite (Op SSD1331_CMD_SETCOLUMN);
             spiWrite (Byte c0); spiWrite (Byte c1);
             spiWrite (Op SSD1331_CMD_SETROW);
             spiWrite (Byte r0); spiWrite (Byte r1);
             SPI_DC_HIGH]) /\
    (c0, c1, r0, r1) =
      (if Z.odd (rotation (panel 3))
       then (90, 90 + 6 - 1, 0, 0 + 64 - 1)
       else (0, 0 + 64 - 1, 90, 90 + 6 - 1)).
Proof.
  assert (H0 : dims_follow_rotation (panel 3)) by reflexivity.
  assert (H1 : WIDTH (panel 3) <= 256) by (cbn; lia).
  assert (H2 : HEIGHT (panel 3) <= 256) by (cbn; lia).
  assert (H3 : 0 <= 0) by lia.
  assert (H4 : 0 < 64) by lia.
  assert (H5 : 0 + 64 <= _width (panel 3)) by (cbn; lia).
  assert (H6 : 0 <= 90) by lia.
  assert (H7 : 0 < 6) by lia.
  assert (H8 : 90 + 6 <= _height (panel 3)) by (cbn; lia).
  split.
  - exact (conj H0 (conj H1 (conj H2 (conj H3 (conj H4 (conj H5
             (conj H6 (conj H7 H8)))))))).
  - exact (setAddrWindow_physical_ranges (panel 3) 0 90 64 6
             H0 H1 H2 H3 H4 H5 H6 H7 H8).
Defined.

(** ** Whole-screen fill *)

(** On any screen of positive dimensions [fillScreen] addresses the whole
    logical screen, corner [(0, 0)] to corner [(_width - 1, _height - 1)],
    with the clear command for colour 0 and the filled rectangle otherwise,
    and then waits a quarter of the pixel count in microseconds.  In a state
    that keeps the invariant of [setRotation] the corner bytes on the wire
    are [0, 0, WIDTH - 1, HEIGHT - 1] in every rotation: the swap of the
    dimensions and the swap of the coordinates cancel. *)
Theorem fillScreen_covers_the_screen d color :
  0 < _width d <= 256 -> 0 < _height d <= 256 ->
  fillScreen d color =
    [startWrite; SPI_DC_LOW]
      ++ (if color =? 0
          then clearFrame d 0 0 (_width d - 1) (_height d - 1)
          else rectFrame d 1 0 0 (_width d - 1) (_height d - 1) (to_int16 color))
      ++ [SPI_DC_HIGH;
          delayMicroseconds (Z.shiftr (_width d * _height d) 2);
          endWrite] /\
  (dims_follow_rotation d ->
   written (spiWriteXY d 0 0 ++ spiWriteXY d (_width d - 1) (_height d - 1)) =
     [Byte 0; Byte 0; Byte (WIDTH d - 1); Byte (HEIGHT d - 1)]).
Proof.
  intros Hw Hh. split.
  - unfold fillScreen, fillRect.
    pose proof (to_int16_id (0 + _width d) ltac:(unfold is_int16; lia)) as Ew.
    pose proof (to_int16_id (0 + _height d) ltac:(unfold is_int16; lia)) as Eh.
    rewrite writeFillRect_drawn by (rewrite ?Ew, ?Eh; lia).
    rewrite Ew, Eh. rewrite to_int32_mul by (unfold is_int16; lia).
    rewrite to_uint32_quarter by lia.
    replace (Z.min (0 + _width d) (_width d) - 1) with (_width d - 1) by lia.
    replace (Z.min (0 + _height d) (_height d) - 1) with (_height d - 1) by lia.
    change (Z.max 0 0) with 0.
    cbn [app]. rewrite <- !app_assoc. reflexivity.
  - unfold dims_follow_rotation. intros Hinv.
    rewrite written_app, !spiWriteXY_bytes by lia. rewrite swap_odd.
    destruct (Z.odd (rotation d)); injection Hinv as Ew Eh;
      rewrite Ew, Eh; reflexivity.
Qed.

Lemma fillScreen_covers_the_screen_witness :
  (0 < _width (panel 1) <= 256 /\ 0 < _height (panel 1) <= 256) /\
  fillScreen (panel 1) 0 =
    [startWrite; SPI_DC_LOW; spiWrite (Op SSD1331_CMD_CLEAR);
     spiWrite (Byte 0); spiWrite (Byte 0);
     spiWrite (Byte 95); spiWrite (Byte 63);
     SPI_DC_HIGH; delayMicroseconds 1536; endWrite].
Proof.
  assert (Hw : 0 < _width (panel 1) <= 256) by (cbn; lia).
  assert (Hh : 0 < _height (panel 1) <= 256) by (cbn; lia).
  split; [exact (conj Hw Hh)|].
  exact (proj1 (fillScreen_covers_the_screen (panel 1) 0 Hw Hh)).
Defined.

(** ** Fast lines *)

(** A fast line draws exactly when its start point and the point [len]
    further along are both on the logical screen, and then it is the line
    between these two points: [len] counts steps, not pixels, may be
    negative, and a line that ends on the last column or row has
    [len = _width - 1 - x] or [len = _height - 1 - y]. *)
Theorem fast_line_end_points d x y len color :
  is_int16 x -> is_int16 y -> is_int16 len ->
  is_int16 (_width d) -> is_int16 (_height d) ->
  (on_screen d x y /\ on_screen d (x + len) y ->
   writeFastHLine d x y len color =
     [SPI_DC_LOW] ++ lineFrame d x y (x + len) y (to_int16 color)
       ++ [SPI_DC_HIGH]) /\
  (~ (on_screen d x y /\ on_screen d (x + len) y) ->
   writeFastHLine d x y len color = []) /\
  (on_screen d x y /\ on_screen d x (y + len) ->
   writeFastVLine d x y len color =
     [SPI_DC_LOW] ++ lineFrame d x y x (y + len) (to_int16 color)
       ++ [SPI_DC_HIGH]) /\
  (~ (on_screen d x y /\ on_screen d x (y + len)) ->
   writeFastVLine d x y len color = []).
Proof.
  intros Hx Hy Hl Hw Hh.
  unfold writeFastHLine, writeFastVLine.
  rewrite writeLine_far_x, writeLine_far_y by assumption.
  repeat split.
  - intros [H0 H1]. apply writeLine_drawn; assumption.
  - apply writeLine_rejected.
  - intros [H0 H1]. apply writeLine_drawn; assumption.
  - apply writeLine_rejected.
Qed.

Lemma fast_line_end_points_witness :
  (is_int16 95 /\ is_int16 5 /\ is_int16 (-95) /\
   is_int16 (_width (panel 0)) /\ is_int16 (_height (panel 0)) /\
   on_screen (panel 0) 95 5 /\ on_screen (panel 0) (95 + -95) 5) /\
  writeFastHLine (panel 0) 95 5 (-95) 0x001F =
    [SPI_DC_LOW; spiWrite (Op SSD1331_CMD_DRAWLINE);
     spiWrite (Byte 95); spiWrite (Byte 5);
     spiWrite (Byte 0); spiWrite (Byte 5);
     spiWrite (Byte 0); spiWrite (Byte 0); spiWrite (Byte 62);
     SPI_DC_HIGH].
Proof.
  assert (H1 : is_int16 95) by (unfold is_int16; lia).
  assert (H2 : is_int16 5) by (unfold is_int16; lia).
  assert (H3 : is_int16 (-95)) by (unfold is_int16; lia).
  assert (H4 : is_int16 (_width (panel 0))) by (unfold is_int16; cbn; lia).
  assert (H5 : is_int16 (_height (panel 0))) by (unfold is_int16; cbn; lia).
  assert (H6 : on_screen (panel 0) 95 5) by (unfold on_screen; cbn; lia).
  assert (H7 : on_screen (panel 0) (95 + -95) 5) by (unfold on_screen; cbn; lia).
  split.
  - exact (conj H1 (conj H2 (conj H3 (conj H4 (conj H5 (conj H6 H7)))))).
  - exact (proj1 (fast_line_end_points (panel 0) 95 5 (-95) 0x001F
                    H1 H2 H3 H4 H5) (conj H6 H7)).
Defined.

(** ** Filled against unfilled rectangles *)

(** The two rectangle paths agree where the unfilled one draws and differ
    on a negative origin.  With the start point on the screen, positive
    extents and sums that fit in [int16_t], [drawRect] and a [writeFillRect]
    of non-zero colour send the same two corners and colour, with fill flag
    0 and 1.  A rectangle that starts left of or above the screen and
    reaches into it (its start point clamped to 0 is on the screen) is
    filled from the screen edge by [writeFillRect] and not drawn at all by
    [drawRect]. *)
Theorem drawRect_against_fillRect d x y w h color :
  color <> 0 -> is_int16 (x + w) -> is_int16 (y + h) -> 0 < w -> 0 < h ->
  (on_screen d x y ->
   exists xb yb,
     on_screen d xb yb /\ x <= xb /\ y <= yb /\
     drawRect d x y w h color =
       [startWrite; SPI_DC_LOW]
         ++ rectFrame d 0 x y xb yb (to_int16 color)
         ++ [SPI_DC_HIGH; endWrite] /\
     writeFillRect d x y w h color =
       [SPI_DC_LOW]
         ++ rectFrame d 1 x y xb yb (to_int16 color)
         ++ [SPI_DC_HIGH; delayMicroseconds (to_uint32 (Z.shiftr (to_int32 (w * h)) 2))]) /\
  ((x < 0 \/ y < 0) -> 0 < x + w -> 0 < y + h ->
   Z.max x 0 < _width d -> Z.max y 0 < _height d ->
   drawRect d x y w h color = [] /\
   writeFillRect d x y w h color =
     [SPI_DC_LOW]
       ++ rectFrame d 1 (Z.max x 0) (Z.max y 0)
            (Z.min (x + w) (_width d) - 1) (Z.min (y + h) (_height d) - 1)
            (to_int16 color)
       ++ [SPI_DC_HIGH; delayMicroseconds (to_uint32 (Z.shiftr (to_int32 (w * h)) 2))]).
Proof.
  intros Hc Hx Hy Hw Hh.
  pose proof Hx as Hx'. pose proof Hy as Hy'. unfold is_int16 in Hx', Hy'.
  assert (Ec : (color =? 0) = false) by (apply Z.eqb_neq; assumption).
  split.
  - intros Hxy. pose proof Hxy as Hxy'. unfold on_screen in Hxy'.
    exists (Z.min (x + w) (_width d) - 1), (Z.min (y + h) (_height d) - 1).
    unfold on_screen. repeat split; try lia.
    + rewrite drawRect_drawn by assumption.
      rewrite (to_int16_id (x + w)), (to_int16_id (y + h)) by assumption.
      rewrite !to_int16_id by (unfold is_int16; lia). reflexivity.
    + rewrite writeFillRect_drawn
        by (rewrite ?(to_int16_id (x + w)), ?(to_int16_id (y + h)) by assumption; lia).
      rewrite Ec.
      rewrite (to_int16_id (x + w)), (to_int16_id (y + h)) by assumption.
      replace (Z.max x 0) with x by lia. replace (Z.max y 0) with y by lia.
      reflexivity.
  - intros Hneg Hxw Hyh Hxl Hyl. split.
    + apply drawRect_rejected. unfold on_screen. lia.
    + rewrite writeFillRect_drawn
        by (rewrite ?(to_int16_id (x + w)), ?(to_int16_id (y + h)) by assumption; lia).
      rewrite Ec.
      rewrite (to_int16_id (x + w)), (to_int16_id (y + h)) by assumption.
      reflexivity.
Qed.

Lemma drawRect_against_fillRect_witness :
  (0xFFFF <> 0 /\ is_int16 (-5 + 20) /\ is_int16 (3 + 4) /\ 0 < 20 /\ 0 < 4 /\
   (-5 < 0 \/ 3 < 0) /\ 0 < -5 + 20 /\ 0 < 3 + 4 /\
   Z.max (-5) 0 < _width (panel 0) /\ Z.max 3 0 < _height (panel 0)) /\
  drawRect (panel 0) (-5) 3 20 4 0xFFFF = [] /\
  writeFillRect (panel 0) (-5) 3 20 4 0xFFFF =
    [SPI_DC_LOW;
     spiWrite (Op SSD1331_CMD_FILL); spiWrite (Byte 1);
     spiWrite (Op SSD1331_CMD_DRAWRECT);
     spiWrite (Byte 0); spiWrite (Byte 3);
     spiWrite (Byte 14); spiWrite (Byte 6);
     spiWrite (Byte 62); spiWrite (Byte 63); spiWrite (Byte 62);
     spiWrite (Byte 62); spiWrite (Byte 63); spiWrite (Byte 62);
     SPI_DC_HIGH; delayMicroseconds 20].
Proof.
  assert (H0 : 0xFFFF <> 0) by discriminate.
  assert (H1 : is_int16 (-5 + 20)) by (unfold is_int16; lia).
  assert (H2 : is_int16 (3 + 4)) by (unfold is_int16; lia).
  assert (H3 : 0 < 20) by lia.
  assert (H4 : 0 < 4) by lia.
  assert (H5 : -5 < 0 \/ 3 < 0) by lia.
  assert (H6 : 0 < -5 + 20) by lia.
  assert (H7 : 0 < 3 + 4) by lia.
  assert (H8 : Z.max (-5) 0 < _width (panel 0)) by (cbn; lia).
  assert (H9 : Z.max 3 0 < _height (panel 0)) by (cbn; lia).
  split.
  - exact (conj H0 (conj H1 (conj H2 (conj H3 (conj H4 (conj H5
             (conj H6 (conj H7 (conj H8 H9))))))))).
  - exact (proj2 (drawRect_against_fillRect (panel 0) (-5) 3 20 4 0xFFFF
                    H0 H1 H2 H3 H4) H5 H6 H7 H8 H9).
Defined.

(** ** The colour operand as a code *)

Lemma spiWriteColor_of_uint16 c :
  is_uint16 c ->
  spiWriteColor (to_int16 c) =
    [spiWrite (Byte (2 * (c / 2048)));
     spiWrite (Byte ((c / 32) mod 64));
     spiWrite (Byte (2 * (c mod 32)))].
Proof.
  intros Hc. pose proof Hc as Hc'. unfold is_uint16 in Hc'.
  unfold spiWriteColor.
  rewrite !land_0x3E, land_0x3F.
  rewrite !Z.shiftr_div_pow2, Z.shiftl_mul_pow2 by lia.
  change (2 ^ 10) with 1024. change (2 ^ 5) with 32. change (2 ^ 1) with 2.
  assert (U : forall v, 0 <= v <= 255 -> to_uint8 v = v)
    by (intros v Hv; apply to_uint8_id; assumption).
  assert (R : forall v, v = c \/ v = c - 65536 ->
              2 * ((v / 1024 / 2) mod 32) = 2 * (c / 2048))
    by (intros v [-> | ->]; Z.div_mod_to_equations; lia).
  assert (G : forall v, v = c \/ v = c - 65536 ->
              (v / 32) mod 64 = (c / 32) mod 64)
    by (intros v [-> | ->]; Z.div_mod_to_equations; lia).
  assert (B : forall v, v = c \/ v = c - 65536 ->
              2 * ((v * 2 / 2) mod 32) = 2 * (c mod 32))
    by (intros v [-> | ->]; Z.div_mod_to_equations; lia).
  pose proof (to_int16_of_uint16 c Hc) as E.
  rewrite (R _ E), (G _ E), (B _ E).
  rewrite (U (2 * (c / 2048))) by (Z.div_mod_to_equations; lia).
  rewrite (U ((c / 32) mod 64)) by (Z.div_mod_to_equations; lia).
  rewrite (U (2 * (c mod 32))) by (Z.div_mod_to_equations; lia).
  reflexivity.
Qed.

(** The three operand bytes lose nothing of a 16-bit colour: each is a
    six-bit value, red and blue even, and [decodeColor] gives the colour
    back; so two colours that go out as the same three bytes are equal. *)
Theorem color_operand_round_trip c c' :
  is_uint16 c ->
  (exists r g b,
     spiWriteColor (to_int16 c) =
       [spiWrite (Byte r); spiWrite (Byte g); spiWrite (Byte b)] /\
     0 <= r <= 62 /\ 0 <= g <= 63 /\ 0 <= b <= 62 /\
     Z.even r = true /\ Z.even b = true /\
     decodeColor r g b = c) /\
  (is_uint16 c' ->
   spiWriteColor (to_int16 c) = spiWriteColor (to_int16 c') -> c = c').
Proof.
  intros Hc. pose proof Hc as Hc0. unfold is_uint16 in Hc0.
  assert (D : forall v, 0 <= v <= 65535 ->
              decodeColor (2 * (v / 2048)) ((v / 32) mod 64) (2 * (v mod 32)) = v)
    by (intros v Hv; unfold decodeColor; Z.div_mod_to_equations; lia).
  split.
  - exists (2 * (c / 2048)), ((c / 32) mod 64), (2 * (c mod 32)).
    split; [apply spiWriteColor_of_uint16; assumption|].
    rewrite !Z.even_mul. cbn [Z.even orb].
    repeat split; try (Z.div_mod_to_equations; lia).
    apply D. assumption.
  - intros Hc' E. pose proof Hc' as Hc1. unfold is_uint16 in Hc1.
    rewrite !spiWriteColor_of_uint16 in E by assumption.
    injection E as Er Eg Eb.
    change (2 * (c / 2048) = 2 * (c' / 2048)) in Er.
    change (2 * (c mod 32) = 2 * (c' mod 32)) in Eb.
    rewrite <- (D c Hc0), <- (D c' Hc1), Er, Eg, Eb. reflexivity.
Qed.

Lemma color_operand_round_trip_witness :
  is_uint16 0xF81F /\
  exists r g b,
    spiWriteColor (to_int16 0xF81F) =
      [spiWrite (Byte r); spiWrite (Byte g); spiWrite (Byte b)] /\
    0 <= r <= 62 /\ 0 <= g <= 63 /\ 0 <= b <= 62 /\
    Z.even r = true /\ Z.even b = true /\
    decodeColor r g b = 0xF81F.
Proof.
  assert (H : is_uint16 0xF81F) by (unfold is_uint16; lia).
  split; [exact H|].
  exact (proj1 (color_operand_round_trip 0xF81F 0 H)).
Defined.

(** ** Block copy *)

Lemma copyBits_exact d x y w h dx dy invert x' dx' w' y' dy' h' :
  copy_fits x dx w (_width d) -> copy_fits y dy h (_height d) ->
  is_int16 (_width d) -> is_int16 (_height d) ->
  spec_copyClip x dx w (_width d) = (x', dx', w') ->
  spec_copyClip y dy h (_height d) = (y', dy', h') ->
  copyBits d x y w h dx dy invert =
    if (w' <=? 0) || (h' <=? 0) then []
    else
      [startWrite; SPI_DC_LOW;
       spiWrite (Op SSD1331_CMD_FILL);
       spiWrite (Byte (if invert then 0x10 else 0x00));
       spiWrite (Op SSD1331_CMD_COPY)]
        ++ spiWriteXY d x' y'
        ++ spiWriteXY d (x' + w' - 1) (y' + h' - 1)
        ++ spiWriteXY d dx' dy'
        ++ [SPI_DC_HIGH; endWrite; delayMicroseconds (Z.shiftr (w' * h') 2)].
Proof.
  intros Fx Fy Wd Hd Sx Sy.
  pose proof (copyClip_exact _ _ _ _ Fx) as Ex.
  pose proof (copyClip_exact _ _ _ _ Fy) as Ey.
  pose proof (spec_copyClip_inside x dx w (_width d)) as Ix.
  pose proof (spec_copyClip_inside y dy h (_height d)) as Iy.
  assert (Rx : is_int16 w').
  { unfold spec_copyClip in Sx. injection Sx as _ _ <-. apply Fx. }
  assert (Ry : is_int16 h').
  { unfold spec_copyClip in Sy. injection Sy as _ _ <-. apply Fy. }
  unfold copyBits. rewrite Ex, Ey, Sx, Sy. rewrite Sx in Ix. rewrite Sy in Iy.
  unfold is_int16 in Wd, Hd, Rx, Ry.
  destruct (Z.leb_spec w' 0); [reflexivity|].
  destruct (Z.leb_spec h' 0); [reflexivity|]. cbn [orb].
  rewrite !to_int16_id by (unfold is_int16; lia).
  rewrite to_int32_mul by (unfold is_int16; lia).
    rewrite to_uint32_quarter by lia.
  destruct invert; reflexivity.
Qed.

(** A copy whose source and destination rectangles both lie inside the
    logical screen is not clipped: the frame names the source corners
    [(x, y)] and [(x + w - 1, y + h - 1)] and the destination [(dx, dy)] as
    given, and the wait is a quarter of [w * h]. *)
Theorem copyBits_inside_is_unclipped d x y w h dx dy invert :
  is_int16 (_width d) -> is_int16 (_height d) ->
  0 < w -> 0 < h ->
  0 <= x -> x + w <= _width d -> 0 <= dx -> dx + w <= _width d ->
  0 <= y -> y + h <= _height d -> 0 <= dy -> dy + h <= _height d ->
  copyBits d x y w h dx dy invert =
    [startWrite; SPI_DC_LOW;
     spiWrite (Op SSD1331_CMD_FILL);
     spiWrite (Byte (if invert then 0x10 else 0x00));
     spiWrite (Op SSD1331_CMD_COPY)]
      ++ spiWriteXY d x y
      ++ spiWriteXY d (x + w - 1) (y + h - 1)
      ++ spiWriteXY d dx dy
      ++ [SPI_DC_HIGH; endWrite; delayMicroseconds (Z.shiftr (w * h) 2)].
Proof.
  intros Wd Hd Hw Hh Hx Hxw Hdx Hdxw Hy Hyh Hdy Hdyh.
  pose proof Wd as Wd'. pose proof Hd as Hd'. unfold is_int16 in Wd', Hd'.
  assert (Sx : spec_copyClip x dx w (_width d) = (x, dx, w))
    by (unfold spec_copyClip; cbv zeta; f_equal; [f_equal|]; lia).
  assert (Sy : spec_copyClip y dy h (_height d) = (y, dy, h))
    by (unfold spec_copyClip; cbv zeta; f_equal; [f_equal|]; lia).
  rewrite (copyBits_exact d x y w h dx dy invert x dx w y dy h);
    try assumption;
    try (unfold copy_fits, is_int16; cbv zeta; lia).
  destruct (Z.leb_spec w 0); [lia|].
  destruct (Z.leb_spec h 0); [lia|]. reflexivity.
Qed.

Lemma copyBits_inside_is_unclipped_witness :
  (is_int16 (_width (panel 0)) /\ is_int16 (_height (panel 0)) /\
   0 < 10 /\ 0 < 8 /\
   0 <= 0 /\ 0 + 10 <= _width (panel 0) /\
   0 <= 86 /\ 86 + 10 <= _width (panel 0) /\
   0 <= 0 /\ 0 + 8 <= _height (panel 0) /\
   0 <= 56 /\ 56 + 8 <= _height (panel 0)) /\
  copyBits (panel 0) 0 0 10 8 86 56 true =
    [startWrite; SPI_DC_LOW;
     spiWrite (Op SSD1331_CMD_FILL); spiWrite (Byte 16);
     spiWrite (Op SSD1331_CMD_COPY);
     spiWrite (Byte 0); spiWrite (Byte 0);
     spiWrite (Byte 9); spiWrite (Byte 7);
     spiWrite (Byte 86); spiWrite (Byte 56);
     SPI_DC_HIGH; endWrite; delayMicroseconds 20].
Proof.
  assert (H1 : is_int16 (_width (panel 0))) by (unfold is_int16; cbn; lia).
  assert (H2 : is_int16 (_height (panel 0))) by (unfold is_int16; cbn; lia).
  assert (H3 : 0 < 10) by lia.
  assert (H4 : 0 < 8) by lia.
  assert (H5 : 0 <= 0) by lia.
  assert (H6 : 0 + 10 <= _width (panel 0)) by (cbn; lia).
  assert (H7 : 0 <= 86) by lia.
  assert (H8 : 86 + 10 <= _width (panel 0)) by (cbn; lia).
  assert (H9 : 0 + 8 <= _height (panel 0)) by (cbn; lia).
  assert (H10 : 0 <= 56) by lia.
  assert (H11 : 56 + 8 <= _height (panel 0)) by (cbn; lia).
  split.
  - exact (conj H1 (conj H2 (conj H3 (conj H4 (conj H5 (conj H6 (conj H7
             (conj H8 (conj H5 (conj H9 (conj H10 H11))))))))))).
  - exact (copyBits_inside_is_unclipped (panel 0) 0 0 10 8 86 56 true
             H1 H2 H3 H4 H5 H6 H7 H8 H5 H9 H10 H11).
Defined.

(** Where no 16-bit update wraps, the wait after a block copy is computed
    from the clipped extents [w'] and [h'], not from the extents asked for:
    a copy clipped away ([w' <= 0] or [h' <= 0]) makes no delay, and any
    other makes one delay of [(w' * h') >> 2] microseconds, which is at
    most the wait of a whole-screen copy, [(_width * _height) >> 2]. *)
Theorem copyBits_wait_is_bounded d x y w h dx dy invert :
  copy_fits x dx w (_width d) -> copy_fits y dy h (_height d) ->
  is_int16 (_width d) -> is_int16 (_height d) ->
  let '(_, _, w') := spec_copyClip x dx w (_width d) in
  let '(_, _, h') := spec_copyClip y dy h (_height d) in
  (w' <= 0 \/ h' <= 0 -> delays (copyBits d x y w h dx dy invert) = []) /\
  (0 < w' -> 0 < h' ->
   delays (copyBits d x y w h dx dy invert) = [Z.shiftr (w' * h') 2] /\
   w' <= _width d /\ h' <= _height d /\
   0 <= Z.shiftr (w' * h') 2 <= Z.shiftr (_width d * _height d) 2).
Proof.
  intros Fx Fy Wd Hd.
  pose proof (spec_copyClip_inside x dx w (_width d)) as Ix.
  pose proof (spec_copyClip_inside y dy h (_height d)) as Iy.
  destruct (spec_copyClip x dx w (_width d)) as [[x' dx'] w'] eqn:Sx.
  destruct (spec_copyClip y dy h (_height d)) as [[y' dy'] h'] eqn:Sy.
  rewrite (copyBits_exact d x y w h dx dy invert x' dx' w' y' dy' h')
    by assumption.
  split.
  - intros Hempty.
    destruct (Z.leb_spec w' 0); [reflexivity|].
    destruct (Z.leb_spec h' 0); [reflexivity|]. lia.
  - intros Hw Hh.
    destruct (Z.leb_spec w' 0); [lia|].
    destruct (Z.leb_spec h' 0); [lia|]. cbn [orb].
    split; [reflexivity|]. split; [lia|]. split; [lia|].
    rewrite !Z.shiftr_div_pow2 by lia. change (2 ^ 2) with 4.
    split.
    + apply Z.div_pos; nia.
    + apply Z.div_le_mono; nia.
Qed.

Lemma copyBits_wait_is_bounded_witness :
  (copy_fits 0 0 96 (_width (panel 0)) /\
   copy_fits 0 (-8) 64 (_height (panel 0)) /\
   is_int16 (_width (panel 0)) /\ is_int16 (_height (panel 0)) /\
   0 < 96 /\ 0 < 56) /\
  delays (copyBits (panel 0) 0 0 96 64 0 (-8) false) = [Z.shiftr (96 * 56) 2] /\
  96 <= _width (panel 0) /\ 56 <= _height (panel 0) /\
  0 <= Z.shiftr (96 * 56) 2 <= Z.shiftr (_width (panel 0) * _height (panel 0)) 2.
Proof.
  assert (Fx : copy_fits 0 0 96 (_width (panel 0)))
    by (apply copy_fits_small; cbn; lia).
  assert (Fy : copy_fits 0 (-8) 64 (_height (panel 0)))
    by (apply copy_fits_small; cbn; lia).
  assert (Wd : is_int16 (_width (panel 0))) by (unfold is_int16; cbn; lia).
  assert (Hd : is_int16 (_height (panel 0))) by (unfold is_int16; cbn; lia).
  assert (Hw : 0 < 96) by lia.
  assert (Hh : 0 < 56) by lia.
  split; [exact (conj Fx (conj Fy (conj Wd (conj Hd (conj Hw Hh)))))|].
  exact (proj2 (copyBits_wait_is_bounded (panel 0) 0 0 96 64 0 (-8) false
                  Fx Fy Wd Hd) Hw Hh).
Defined.

(** ** Scrolling text *)





